(** * Encrypted Notebook icon generator: [assets/icon/generate_icons.py]

    A shallow embedding of the script and of the part of Python and of the
    Pillow API it relies on, followed by the properties of its layout
    arithmetic, of its drawing calls and of its file output. *)

From stdpp Require Import gmap strings list.
From Stdlib Require Import ZArith Lia.

#[local] Set Warnings "-clear-no-such-hyp".
Local Open Scope Z_scope.

(** ** Python numbers

    Sizes and coordinates are Python [int]s, modelled by [Z]; [//] by a
    positive constant is [Z.div] (both round towards minus infinity).  The
    proportionality factors are binary64 literals, so [size * 0.7] converts
    the integer to a double, multiplies two doubles and rounds the product
    to nearest, ties to even; [int(...)] then truncates towards zero.  All
    of this is exact integer arithmetic on significands. *)

Module PyFloat.

(** A positive binary64 constant [mant * 2^-expo] with a 53-bit [mant]. *)
Record dconst := { mant : Z; expo : Z }.

Definition c_0_4   := {| mant := 0x1999999999999a; expo := 54 |}.
Definition c_0_7   := {| mant := 0x16666666666666; expo := 53 |}.
Definition c_0_075 := {| mant := 0x13333333333333; expo := 56 |}.
Definition c_0_35  := {| mant := 0x16666666666666; expo := 54 |}.
Definition c_0_68  := {| mant := 0x15c28f5c28f5c3; expo := 53 |}.
Definition c_0_09  := {| mant := 0x170a3d70a3d70a; expo := 56 |}.
Definition c_0_6   := {| mant := 0x13333333333333; expo := 53 |}.

(** Round a non-negative integer to 53 significant bits, to nearest, ties
    to even. *)
Definition round53 (p : Z) : Z :=
  let shift := Z.log2 p - 52 in
  if shift <=? 0 then p
  else
    let q := Z.shiftr p shift in
    let r := Z.land p (Z.ones shift) in
    let half := 2 ^ (shift - 1) in
    let q' := if (half <? r) || ((r =? half) && Z.odd q) then q + 1 else q in
    Z.shiftl q' shift.

(** [float(n)]: [None] stands for [OverflowError] (the rounded magnitude
    does not fit the binary64 exponent range). *)
Definition int_to_float (n : Z) : option Z :=
  let a := round53 (Z.abs n) in
  if a <? 2 ^ 1024 then Some (Z.sgn n * a) else None.

(** [n * c] as a double, given as the integer [v] with value [v * 2^-expo c].
    The factor is below one, so the product of a finite double stays finite,
    and a product of an integer of magnitude at least one with these
    constants is far above the subnormal range. *)
Definition mul_const (n : Z) (c : dconst) : option Z :=
  f ← int_to_float n;
  Some (Z.sgn f * round53 (Z.abs f * mant c)).

(** [int(n * c)]: truncation towards zero. *)
Definition int_mul (n : Z) (c : dconst) : option Z :=
  v ← mul_const n c; Some (Z.quot v (2 ^ expo c)).


End PyFloat.

Import PyFloat.

(** ** Exceptions, values and the world the script runs in *)

Inductive exn :=
  | ImportError
  | ValueError
  | OverflowError
  | FileNotFoundError
  | FileExistsError
  | NotADirectoryError
  | IsADirectoryError
  | SystemExit (code : Z).

Inductive result (A : Type) :=
  | Ok (a : A)
  | Raise (e : exn).
Arguments Ok {A} a.
Arguments Raise {A} e.

(** Pillow image modes and colour tuples of three or four channels. *)
Inductive mode := RGB | RGBA.

Inductive color :=
  | Rgb (r g b : Z)
  | Rgba (r g b a : Z).

(** A bounding box, the Python list [[x0, y0, x1, y1]]. *)
Definition box : Type := Z * Z * Z * Z.

(** The drawing calls the script issues, with the arguments it passes. *)
Inductive shape :=
  | Rectangle (xy : box) (fill outline : option color)
  | Ellipse (xy : box) (fill outline : option color)
  | Arc (xy : box) (start stop : Z) (fill : option color) (width : Z).

(** A canvas: its mode, its size, the colour it was created with and the
    shapes drawn on it since, oldest first.  The pixels are read back from
    this by [getpixel] below. *)
Record image := {
  im_mode : mode;
  im_size : Z * Z;
  im_fill : color;
  im_layers : list shape
}.

Definition add_layer (s : shape) (im : image) : image :=
  {| im_mode := im_mode im; im_size := im_size im; im_fill := im_fill im;
     im_layers := im_layers im ++ [s] |}.

(** A normalised absolute path, as its components below the root. *)
Definition path : Type := list string.

(** What a file holds: an image written by [save], or anything else. *)
Inductive content :=
  | Png (im : image)
  | Other.

(** The state the script can read or change: the image objects it has
    allocated, the file system, and the standard output stream. *)
Record world := {
  heap : list image;
  dirs : gset path;
  files : gmap path content;
  stdout : list string
}.

Definition set_heap (h : list image) (w : world) : world :=
  {| heap := h; dirs := dirs w; files := files w; stdout := stdout w |}.
Definition set_dirs (d : gset path) (w : world) : world :=
  {| heap := heap w; dirs := d; files := files w; stdout := stdout w |}.
Definition set_files (f : gmap path content) (w : world) : world :=
  {| heap := heap w; dirs := dirs w; files := f; stdout := stdout w |}.
Definition set_stdout (o : list string) (w : world) : world :=
  {| heap := heap w; dirs := dirs w; files := files w; stdout := o |}.

(** Statements: state passing with exceptions.  A raised exception keeps
    the changes made before it. *)
Definition M (A : Type) : Type := world → result A * world.

#[global] Instance M_ret : MRet M := λ A a w, (Ok a, w).
#[global] Instance M_bind : MBind M := λ A B f m w,
  match m w with
  | (Ok a, w') => f a w'
  | (Raise e, w') => (Raise e, w')
  end.

Definition raise {A} (e : exn) : M A := λ w, (Raise e, w).

(** [try: body  except <handled>: handler]. *)
Definition try_except {A} (body : M A) (handled : exn → bool) (handler : M A) : M A :=
  λ w, match body w with
       | (Ok a, w') => (Ok a, w')
       | (Raise e, w') => if handled e then handler w' else (Raise e, w')
       end.

Fixpoint for_each {A} (l : list A) (body : A → M unit) : M unit :=
  match l with
  | [] => mret tt
  | a :: l' => body a ;; for_each l' body
  end.

(** [range(n)]. *)
Definition range (n : Z) : list Z := seqZ 0 n.

(** [int(n * c)] as a statement. *)
Definition int_times (n : Z) (c : dconst) : M Z :=
  match int_mul n c with
  | Some k => mret k
  | None => raise OverflowError
  end.

(** [print(line)] on an output stream that takes the line.  A stream that
    cannot encode it ([UnicodeEncodeError]) or is closed is not modelled:
    what is proved of a run that gets past a [print] holds of the runs
    whose [print] succeeded. *)
Definition print (line : string) : M unit :=
  λ w, (Ok tt, set_stdout (stdout w ++ [line]) w).

Definition exit {A} (code : Z) : M A := raise (SystemExit code).

(** ** The Pillow and [os] calls the script makes *)

Module Image.

(** [Image.new(mode, size, color)]: a fresh image object; Pillow rejects a
    negative width or height with [ValueError].  Its upper limits are not
    modelled, neither the [OverflowError] for a side of [2^31] or more nor
    the lack of memory for a large image: what is proved of a returned
    image holds of the calls that return. *)
Definition new (m : mode) (size : Z * Z) (c : color) : M nat := λ w,
  if (size.1 <? 0) || (size.2 <? 0) then (Raise ValueError, w)
  else (Ok (length (heap w)),
        set_heap (heap w ++ [{| im_mode := m; im_size := size; im_fill := c;
                                im_layers := [] |}]) w).

End Image.

Module ImageDraw.

(** The object returned by [ImageDraw.Draw(img)]: it draws on [img] itself. *)
Record t := { target : nat }.

Definition Draw (img : nat) : M t := mret {| target := img |}.

(** Every drawing method changes the image the drawer was made for.  A
    reference that denotes no live image is Pillow's closed image.
    Pillow's limits on the numbers it is given are not modelled (it raises
    [OverflowError] for a coordinate or a width that does not fit its C
    integer): a normal end of a drawing routine is claimed only for
    arguments within [fits_int32]. *)
Definition draw_shape (draw : t) (s : shape) : M unit := λ w,
  match heap w !! target draw with
  | Some im => (Ok tt, set_heap (<[target draw := add_layer s im]> (heap w)) w)
  | None => (Raise ValueError, w)
  end.

Definition rectangle (draw : t) (xy : box) (fill outline : option color) : M unit :=
  draw_shape draw (Rectangle xy fill outline).

Definition ellipse (draw : t) (xy : box) (fill outline : option color) : M unit :=
  draw_shape draw (Ellipse xy fill outline).

Definition arc (draw : t) (xy : box) (start stop : Z) (fill : option color)
    (width : Z) : M unit :=
  draw_shape draw (Arc xy start stop fill width).

End ImageDraw.

Module os.

(** [os.path.join(d, name)] and [os.path.dirname(p)] on normalised absolute
    paths; the parent of the root is the root. *)
Definition join (d : path) (name : string) : path := d ++ [name].
Definition dirname (p : path) : path := removelast p.

Definition is_dir (w : world) (p : path) : bool :=
  bool_decide (p = [] ∨ p ∈ dirs w).
Definition is_file (w : world) (p : path) : bool :=
  bool_decide (is_Some (files w !! p)).

(** Create the directories [pre/c1], [pre/c1/c2], ... that are missing. *)
Fixpoint makedirs_from (pre : path) (rest : list string) : M unit :=
  match rest with
  | [] => mret tt
  | c :: rest' =>
      let p := pre ++ [c] in
      (λ w, if is_file w p
            then (Raise (match rest' with
                         | [] => FileExistsError
                         | _ => NotADirectoryError
                         end), w)
            else (Ok tt, set_dirs ({[p]} ∪ dirs w) w)) ;;
      makedirs_from p rest'
  end.

(** [os.makedirs(p, exist_ok=True)]. *)
Definition makedirs (p : path) : M unit := makedirs_from [] p.

End os.

(** [img.save(p)]: writes the image as it is now; the directory must be
    there.  File system errors are raised, never handled.  Permissions and
    device errors are not modelled. *)
Definition save (img : nat) (p : path) : M unit := λ w,
  match heap w !! img with
  | None => (Raise ValueError, w)
  | Some im =>
      if os.is_dir w p then (Raise IsADirectoryError, w)
      else if os.is_file w (os.dirname p) then (Raise NotADirectoryError, w)
      else if negb (os.is_dir w (os.dirname p)) then (Raise FileNotFoundError, w)
      else (Ok tt, set_files (<[p := Png im]> (files w)) w)
  end.

(** ** The script *)

(** Colors *)
Definition BG_COLOR := Rgb 26 26 46.
Definition WHITE := Rgb 255 255 255.
Definition GREEN := Rgb 76 175 80.

(** Draw a simple notebook icon *)
Definition draw_notebook (draw : ImageDraw.t) (x y size : Z) (color : color) : M unit :=
  (* Book body *)
  let left := x - size / 2 in
  let top := y - size / 2 in
  let right := x + size / 2 in
  let bottom := y + size / 2 in
  ImageDraw.rectangle draw (left, top, right, bottom) (Some color) (Some color) ;;
  (* Spine shadow *)
  let spine_width := size / 10 in
  ImageDraw.rectangle draw (left, top, left + spine_width, bottom)
    (Some (Rgb 200 200 200)) (Some (Rgb 200 200 200)) ;;
  (* Page lines *)
  let line_spacing := size / 6 in
  line_width ← int_times size c_0_6;
  let line_height := size / 25 in
  for_each (range 3) (λ i,
    let line_y := y + (i - 1) * line_spacing in
    let line_left := left + size / 5 in
    ImageDraw.rectangle draw
      (line_left, line_y - line_height / 2,
       line_left + line_width, line_y + line_height / 2)
      (Some (Rgb 230 230 230)) None).

(** Draw a lock badge *)
Definition draw_lock_badge (draw : ImageDraw.t) (x y size : Z) : M unit :=
  (* Badge circle *)
  ImageDraw.ellipse draw (x - size, y - size, x + size, y + size)
    (Some GREEN) (Some GREEN) ;;
  (* Lock body *)
  let lock_width := size / 2 in
  lock_height ← int_times size c_0_6;
  let lock_left := x - lock_width / 2 in
  let lock_top := y - lock_height / 4 in
  ImageDraw.rectangle draw
    (lock_left, lock_top, lock_left + lock_width, lock_top + lock_height / 2)
    (Some WHITE) None ;;
  (* Lock shackle (simplified as arc) *)
  let shackle_size := lock_width / 3 in
  let shackle_thickness := size / 7 in
  ImageDraw.arc draw
    (x - shackle_size, y - lock_height / 2 - shackle_size,
     x + shackle_size, y - lock_height / 4)
    180 0 (Some WHITE) shackle_thickness ;;
  (* Keyhole *)
  let keyhole_size := size / 8 in
  ImageDraw.ellipse draw
    (x - keyhole_size, y - keyhole_size, x + keyhole_size, y + keyhole_size)
    (Some GREEN) None.

(** Generate main app icon with background *)
Definition generate_app_icon (size : Z) : M nat :=
  img ← Image.new RGB (size, size) BG_COLOR;
  draw ← ImageDraw.Draw img;
  (* Draw notebook *)
  notebook_size ← int_times size c_0_4;
  draw_notebook draw (size / 2) (size / 2) notebook_size WHITE ;;
  (* Draw lock badge *)
  badge_x ← int_times size c_0_7;
  badge_y ← int_times size c_0_7;
  badge_size ← int_times size c_0_075;
  draw_lock_badge draw badge_x badge_y badge_size ;;
  mret img.

(** Generate foreground icon with transparency *)
Definition generate_foreground_icon (size : Z) : M nat :=
  img ← Image.new RGBA (size, size) (Rgba 0 0 0 0);
  draw ← ImageDraw.Draw img;
  (* Draw notebook *)
  notebook_size ← int_times size c_0_4;
  draw_notebook draw (size / 2) (size / 2) notebook_size WHITE ;;
  (* Draw lock badge *)
  badge_x ← int_times size c_0_7;
  badge_y ← int_times size c_0_7;
  badge_size ← int_times size c_0_075;
  draw_lock_badge draw badge_x badge_y badge_size ;;
  mret img.

(** Generate splash screen icon *)
Definition generate_splash_icon (size : Z) : M nat :=
  img ← Image.new RGBA (size, size) (Rgba 0 0 0 0);
  draw ← ImageDraw.Draw img;
  (* Draw notebook (slightly larger for splash) *)
  notebook_size ← int_times size c_0_35;
  draw_notebook draw (size / 2) (size / 2) notebook_size WHITE ;;
  (* Draw lock badge *)
  badge_x ← int_times size c_0_68;
  badge_y ← int_times size c_0_68;
  badge_size ← int_times size c_0_09;
  draw_lock_badge draw badge_x badge_y badge_size ;;
  mret img.

Definition newline : string := String (Ascii.ascii_of_nat 10) EmptyString.

(** Generate all icon files.  [file] is [os.path.abspath(__file__)]. *)
Definition main (file : path) : M unit :=
  let script_dir := os.dirname file in
  print "🎨 Generating Encrypted Notebook icons..." ;;
  (* Generate app icon *)
  print "  📱 Generating app_icon.png (1024x1024)..." ;;
  app_icon ← generate_app_icon 1024;
  save app_icon (os.join script_dir "app_icon.png") ;;
  (* Generate foreground icon *)
  print "  🎭 Generating app_icon_foreground.png (1024x1024)..." ;;
  foreground_icon ← generate_foreground_icon 1024;
  save foreground_icon (os.join script_dir "app_icon_foreground.png") ;;
  (* Generate splash icon *)
  print "  💫 Generating splash_icon.png (512x512)..." ;;
  splash_icon ← generate_splash_icon 512;
  let splash_dir := os.join (os.dirname script_dir) "splash" in
  os.makedirs splash_dir ;;
  save splash_icon (os.join splash_dir "splash_icon.png") ;;
  print "✅ All icons generated successfully!" ;;
  print (newline +:+ "Next steps:") ;;
  print "  1. Run: flutter pub get" ;;
  print "  2. Run: flutter pub run flutter_launcher_icons" ;;
  print "  3. Run: flutter pub run flutter_native_splash:create" ;;
  print "  4. Run: flutter run".

(** [from PIL import Image, ImageDraw]: fails when Pillow is not installed. *)
Definition import_PIL (pillow_installed : bool) : M unit :=
  if pillow_installed then mret tt else raise ImportError.

Definition is_ImportError (e : exn) : bool :=
  match e with ImportError => true | _ => false end.

(** The module body: the guarded imports, then [main()] when the file is
    run as a script. *)
Definition script (pillow_installed : bool) (name : string) (file : path) : M unit :=
  try_except (import_PIL pillow_installed) is_ImportError
    (print "Error: Pillow library not found." ;;
     print "Install it with: pip install pillow" ;;
     exit 1) ;;
  if String.eqb name "__main__" then main file else mret tt.

(** The exit status of the interpreter: [0] after a normal end, the code of
    a [SystemExit], [1] after any other uncaught exception. *)
Definition exit_status (r : result unit) : Z :=
  match r with
  | Ok _ => 0
  | Raise (SystemExit code) => code
  | Raise _ => 1
  end.

(** ** Reading pixels back

    Pillow's rectangles cover their bounding box, both corners included.
    Which pixels an ellipse or an arc covers is Pillow's rasteriser's
    business; it is a parameter here. *)

Definition in_box (b : box) (px py : Z) : bool :=
  let '(x0, y0, x1, y1) := b in
  (x0 <=? px) && (px <=? x1) && (y0 <=? py) && (py <=? y1).

Definition on_edge (b : box) (px py : Z) : bool :=
  let '(x0, y0, x1, y1) := b in
  in_box b px py && ((px =? x0) || (px =? x1) || (py =? y0) || (py =? y1)).

Definition when {A} (b : bool) (o : option A) : option A :=
  if b then o else None.

Definition or_else {A} (o1 o2 : option A) : option A :=
  match o1 with Some a => Some a | None => o2 end.

(** The value stored for a colour tuple in an image of the given mode. *)
Definition ink (m : mode) (c : color) : color :=
  match m, c with
  | RGB, Rgba r g b _ => Rgb r g b
  | RGBA, Rgb r g b => Rgba r g b 255
  | _, _ => c
  end.

(** The transparency channel of a pixel value, if it has one. *)
Definition alpha (c : color) : option Z :=
  match c with
  | Rgb _ _ _ => None
  | Rgba _ _ _ a => Some a
  end.

Section Raster.

Variable ellipse_fill_mask : box → Z → Z → bool.
Variable ellipse_outline_mask : box → Z → Z → bool.
Variable arc_mask : box → Z → Z → Z → Z → Z → bool.

(** The colour a drawing call puts on pixel [(px, py)], if it touches it:
    the outline is drawn over the fill. *)
Definition paint (s : shape) (px py : Z) : option color :=
  match s with
  | Rectangle xy fill outline =>
      or_else (when (on_edge xy px py) outline) (when (in_box xy px py) fill)
  | Ellipse xy fill outline =>
      or_else (when (ellipse_outline_mask xy px py) outline)
              (when (ellipse_fill_mask xy px py) fill)
  | Arc xy start stop fill width =>
      when (arc_mask xy start stop width px py) fill
  end.

Definition touched (s : shape) (px py : Z) : bool :=
  match paint s px py with Some _ => true | None => false end.

Definition in_canvas (im : image) (px py : Z) : bool :=
  (0 <=? px) && (px <? (im_size im).1) && (0 <=? py) && (py <? (im_size im).2).

Definition pixel_under (m : mode) (layers : list shape) (base : color)
    (px py : Z) : color :=
  fold_left (λ acc s, match paint s px py with
                      | Some c => ink m c
                      | None => acc
                      end) layers base.

(** [img.getpixel((px, py))]; [None] outside the canvas. *)
Definition getpixel (im : image) (px py : Z) : option color :=
  when (in_canvas im px py)
       (Some (pixel_under (im_mode im) (im_layers im)
                          (ink (im_mode im) (im_fill im)) px py)).

End Raster.

(** ** What a drawing routine adds to its canvas *)

Definition add_layers (ls : list shape) (im : image) : image :=
  {| im_mode := im_mode im; im_size := im_size im; im_fill := im_fill im;
     im_layers := im_layers im ++ ls |}.

(** [m], drawing on the live image object [i], ends with [r] after adding
    the shapes [ls] to that image, and touches nothing else, whatever the
    world it runs in. *)
Definition has_trace {A} (m : M A) (i : nat) (r : result A) (ls : list shape) : Prop :=
  ∀ w im, heap w !! i = Some im →
    m w = (r, set_heap (<[i := add_layers ls im]> (heap w)) w).

(** A world holding one blank canvas, and what a drawing routine does to
    it: its result and the shapes it has added. *)
Definition canvas_world : world :=
  {| heap := [{| im_mode := RGBA; im_size := (0, 0); im_fill := Rgba 0 0 0 0;
                 im_layers := [] |}];
     dirs := ∅; files := ∅; stdout := [] |}.

Definition drawn {A} (routine : ImageDraw.t → M A) : result A * list shape :=
  let '(r, w) := routine {| ImageDraw.target := 0 |} canvas_world in
  (r, match heap w !! 0%nat with
      | Some im => im_layers im
      | None => []
      end).

(** The shapes of the notebook glyph, given the page-line width. *)
Definition page_line (x y size line_width i : Z) : shape :=
  Rectangle
    (x - size / 2 + size / 5,
     y + (i - 1) * (size / 6) - size / 25 / 2,
     x - size / 2 + size / 5 + line_width,
     y + (i - 1) * (size / 6) + size / 25 / 2)
    (Some (Rgb 230 230 230)) None.

Definition notebook_body (x y size : Z) (color : color) : shape :=
  Rectangle (x - size / 2, y - size / 2, x + size / 2, y + size / 2)
    (Some color) (Some color).

Definition notebook_spine (x y size : Z) : shape :=
  Rectangle (x - size / 2, y - size / 2, x - size / 2 + size / 10, y + size / 2)
    (Some (Rgb 200 200 200)) (Some (Rgb 200 200 200)).

Definition notebook_shapes (x y size : Z) (color : color) (line_width : Z) : list shape :=
  [notebook_body x y size color; notebook_spine x y size]
  ++ map (page_line x y size line_width) [0; 1; 2].

(** The shapes of the lock badge, given the lock height. *)
Definition badge_disk (x y size : Z) : shape :=
  Ellipse (x - size, y - size, x + size, y + size) (Some GREEN) (Some GREEN).

Definition lock_body (x y size lock_height : Z) : shape :=
  Rectangle
    (x - size / 2 / 2, y - lock_height / 4,
     x - size / 2 / 2 + size / 2, y - lock_height / 4 + lock_height / 2)
    (Some WHITE) None.

Definition lock_shackle (x y size lock_height : Z) : shape :=
  Arc (x - size / 2 / 3, y - lock_height / 2 - size / 2 / 3,
       x + size / 2 / 3, y - lock_height / 4)
    180 0 (Some WHITE) (size / 7).

Definition keyhole (x y size : Z) : shape :=
  Ellipse (x - size / 8, y - size / 8, x + size / 8, y + size / 8)
    (Some GREEN) None.

Definition badge_shapes (x y size lock_height : Z) : list shape :=
  [badge_disk x y size; lock_body x y size lock_height;
   lock_shackle x y size lock_height; keyhole x y size].

(** The outcome of a drawing routine and the shapes it has added by then. *)
Definition T (A : Type) : Type := result A * list shape.

Definition then_ {A} (t1 : T unit) (t2 : T A) : T A :=
  match t1 with
  | (Ok _, l1) => (t2.1, l1 ++ t2.2)
  | (Raise e, l1) => (Raise e, l1)
  end.

Definition notebook_trace (x y size : Z) (color : color) : T unit :=
  match int_mul size c_0_6 with
  | Some line_width => (Ok tt, notebook_shapes x y size color line_width)
  | None => (Raise OverflowError,
             [notebook_body x y size color; notebook_spine x y size])
  end.

Definition badge_trace (x y size : Z) : T unit :=
  match int_mul size c_0_6 with
  | Some lock_height => (Ok tt, badge_shapes x y size lock_height)
  | None => (Raise OverflowError, [badge_disk x y size])
  end.

(** The part the three generators share after creating the canvas: the
    notebook of size [int(size * cn)] at the centre, then the badge of size
    [int(size * cr)] at [int(size * cb)] on both axes. *)
Definition icon_body (img : nat) (size : Z) (cn cb cr : dconst) : M nat :=
  draw ← ImageDraw.Draw img;
  notebook_size ← int_times size cn;
  draw_notebook draw (size / 2) (size / 2) notebook_size WHITE ;;
  badge_x ← int_times size cb;
  badge_y ← int_times size cb;
  badge_size ← int_times size cr;
  draw_lock_badge draw badge_x badge_y badge_size ;;
  mret img.

Definition icon_trace (size : Z) (cn cb cr : dconst) : T unit :=
  match int_mul size cn with
  | None => (Raise OverflowError, [])
  | Some notebook_size =>
      then_ (notebook_trace (size / 2) (size / 2) notebook_size WHITE)
        match int_mul size cb, int_mul size cr with
        | Some badge_x, Some badge_size => badge_trace badge_x badge_x badge_size
        | _, _ => (Raise OverflowError, [])
        end
  end.

Definition blank (m : mode) (size : Z) (c : color) : image :=
  {| im_mode := m; im_size := (size, size); im_fill := c; im_layers := [] |}.

(** A generator's result and effect, in closed form: the new image object
    is the only change to the world. *)
Definition ref_result (t : T unit) (i : nat) : result nat :=
  match t.1 with
  | Ok _ => Ok i
  | Raise e => Raise e
  end.

Definition icon_outcome (m : mode) (c : color) (size : Z) (cn cb cr : dconst)
    (w : world) : result nat * world :=
  if size <? 0 then (Raise ValueError, w)
  else (ref_result (icon_trace size cn cb cr) (length (heap w)),
        set_heap (heap w ++ [add_layers (icon_trace size cn cb cr).2
                                        (blank m size c)]) w).

(** The proportionality constants of the script. *)
Definition factors : list dconst :=
  [c_0_4; c_0_7; c_0_075; c_0_35; c_0_68; c_0_09; c_0_6].

(** The image a call returned, or the exception it raised. *)
Definition returned (o : result nat * world) : result image :=
  match o with
  | (Ok i, w) => match heap w !! i with
                 | Some im => Ok im
                 | None => Raise ValueError
                 end
  | (Raise e, _) => Raise e
  end.

(** The image a generator returns, as a function of the size alone. *)
Definition icon_image (m : mode) (c : color) (size : Z) (cn cb cr : dconst) : result image :=
  if size <? 0 then Raise ValueError
  else match (icon_trace size cn cb cr).1 with
       | Ok _ => Ok (add_layers (icon_trace size cn cb cr).2 (blank m size c))
       | Raise e => Raise e
       end.

(** Two images that agree on mode, size and on every pixel, whatever the
    rasteriser of ellipses and arcs. *)
Definition same_pixels (a b : image) : Prop :=
  im_mode a = im_mode b ∧ im_size a = im_size b ∧
  ∀ fm om am px py, getpixel fm om am a px py = getpixel fm om am b px py.

Definition same_outcome (r1 r2 : result image) : Prop :=
  match r1, r2 with
  | Ok a, Ok b => same_pixels a b
  | Raise e1, Raise e2 => e1 = e2
  | _, _ => False
  end.

Definition generators : list (Z → M nat) :=
  [generate_app_icon; generate_foreground_icon; generate_splash_icon].

(** The world outside the image objects. *)
Definition outside (w : world) : gset path * gmap path content * list string :=
  (dirs w, files w, stdout w).

(** The first ellipse drawn on a canvas is the badge disk; its centre is
    the midpoint of its bounding box. *)
Fixpoint first_ellipse (ls : list shape) : option box :=
  match ls with
  | [] => None
  | Ellipse xy _ _ :: _ => Some xy
  | _ :: ls' => first_ellipse ls'
  end.

Definition center (b : box) : Z * Z :=
  let '(x0, y0, x1, y1) := b in ((x0 + x1) / 2, (y0 + y1) / 2).

Definition badge_center (im : image) : option (Z * Z) :=
  center <$> first_ellipse (im_layers im).




(** [v] is [num / den] up to rounding: within one of the exact quotient. *)
Definition near (v num den : Z) : Prop :=
  num - den ≤ v * den ≤ num + den.

Fixpoint first_rectangle (ls : list shape) : option box :=
  match ls with
  | [] => None
  | Rectangle xy _ _ :: _ => Some xy
  | _ :: ls' => first_rectangle ls'
  end.

(** The page lines are the light-gray rectangles drawn without outline. *)
Definition is_page_line (s : shape) : option box :=
  match s with
  | Rectangle xy fill None =>
      match fill with
      | Some (Rgb 230 230 230) => Some xy
      | _ => None
      end
  | _ => None
  end.

Definition page_lines (ls : list shape) : list box := omap is_page_line ls.


(** The foreground icon as the specification words it: the app icon's
    drawing, on a fully transparent RGBA canvas instead of the opaque
    background. *)
Definition app_icon_on (m : mode) (c : color) (size : Z) : M nat :=
  img ← Image.new m (size, size) c;
  icon_body img size c_0_4 c_0_7 c_0_075.

Definition foreground_as_described (size : Z) : M nat :=
  app_icon_on RGBA (Rgba 0 0 0 0) size.

(** Two outcomes that differ in the canvas only: an opaque RGB canvas of
    the background colour against a transparent RGBA one, of the same size
    and with the same shapes drawn. *)
Definition differ_in_canvas_only (size : Z) (app fg : result image) : Prop :=
  match app, fg with
  | Ok a, Ok f =>
      im_layers f = im_layers a ∧
      im_size a = (size, size) ∧ im_size f = (size, size) ∧
      im_mode a = RGB ∧ im_fill a = BG_COLOR ∧
      im_mode f = RGBA ∧ im_fill f = Rgba 0 0 0 0
  | Raise e1, Raise e2 => e1 = e2
  | _, _ => False
  end.

(** The paths [main] writes to, for a script at [file]. *)
Definition app_icon_path (file : path) : path :=
  os.join (os.dirname file) "app_icon.png".
Definition foreground_icon_path (file : path) : path :=
  os.join (os.dirname file) "app_icon_foreground.png".
Definition splash_dir (file : path) : path :=
  os.join (os.dirname (os.dirname file)) "splash".
Definition splash_icon_path (file : path) : path :=
  os.join (splash_dir file) "splash_icon.png".

(** The directories [os.makedirs] goes through. *)
Fixpoint prefixes_from (pre : path) (rest : list string) : list path :=
  match rest with
  | [] => []
  | c :: rest' => (pre ++ [c]) :: prefixes_from (pre ++ [c]) rest'
  end.

(** A file system in which nothing stands in the way of [main]: the
    script's directory is a directory, the three targets are not
    directories, and no file has the name of the splash directory or of
    one of its ancestors. *)
Definition fs_ready (file : path) (w : world) : bool :=
  os.is_dir w (os.dirname file)
  && negb (os.is_file w (os.dirname file))
  && negb (os.is_dir w (app_icon_path file))
  && negb (os.is_dir w (foreground_icon_path file))
  && negb (os.is_dir w (splash_icon_path file))
  && forallb (λ q, negb (os.is_file w q)) (prefixes_from [] (splash_dir file)).

(** The three images of a run, and the lines it prints. *)
Definition image_of (r : result image) : image :=
  match r with
  | Ok im => im
  | Raise _ => blank RGB 0 BG_COLOR
  end.

Definition app_icon_1024 : image :=
  image_of (icon_image RGB BG_COLOR 1024 c_0_4 c_0_7 c_0_075).
Definition foreground_icon_1024 : image :=
  image_of (icon_image RGBA (Rgba 0 0 0 0) 1024 c_0_4 c_0_7 c_0_075).
Definition splash_icon_512 : image :=
  image_of (icon_image RGBA (Rgba 0 0 0 0) 512 c_0_35 c_0_68 c_0_09).

Definition main_output : list string :=
  ["🎨 Generating Encrypted Notebook icons...";
   "  📱 Generating app_icon.png (1024x1024)...";
   "  🎭 Generating app_icon_foreground.png (1024x1024)...";
   "  💫 Generating splash_icon.png (512x512)...";
   "✅ All icons generated successfully!";
   newline +:+ "Next steps:";
   "  1. Run: flutter pub get";
   "  2. Run: flutter pub run flutter_launcher_icons";
   "  3. Run: flutter pub run flutter_native_splash:create";
   "  4. Run: flutter run"].

(** The world after a complete run of [main]. *)
Definition after_main (file : path) (w : world) : world :=
  {| heap := heap w ++ [app_icon_1024; foreground_icon_1024; splash_icon_512];
     dirs := list_to_set (prefixes_from [] (splash_dir file)) ∪ dirs w;
     files := <[splash_icon_path file := Png splash_icon_512]>
                (<[foreground_icon_path file := Png foreground_icon_1024]>
                   (<[app_icon_path file := Png app_icon_1024]> (files w)));
     stdout := stdout w ++ main_output |}.

(** A project tree with the script in [assets/icon]. *)
Definition script_file : path := ["app"; "assets"; "icon"; "generate_icons.py"].

Definition w_project : world :=
  {| heap := [];
     dirs := {[ ["app"]; ["app"; "assets"]; ["app"; "assets"; "icon"] ]};
     files := {[ script_file := Other ]};
     stdout := [] |}.

(** The bounding box a drawing call is given, and rasterisers that stay
    inside it. *)
Definition bbox (s : shape) : box :=
  match s with
  | Rectangle xy _ _ => xy
  | Ellipse xy _ _ => xy
  | Arc xy _ _ _ _ => xy
  end.

Definition within (inner outer : box) : Prop :=
  let '(a0, b0, a1, b1) := inner in
  let '(x0, y0, x1, y1) := outer in
  x0 ≤ a0 ∧ a1 ≤ x1 ∧ y0 ≤ b0 ∧ b1 ≤ y1.

Definition boxed (fm om : box → Z → Z → bool)
    (am : box → Z → Z → Z → Z → Z → bool) : Prop :=
  ∀ b px py,
    (fm b px py = true → in_box b px py = true) ∧
    (om b px py = true → in_box b px py = true) ∧
    (∀ start stop width, am b start stop width px py = true → in_box b px py = true).

(** A plain rasteriser to evaluate pixels with: the lattice points of the
    inscribed ellipse, its one-pixel rim, and for an arc the part of a ring
    of the given width that lies in the upper half of the box. *)
Definition sample_fill (b : box) (px py : Z) : bool :=
  let '(x0, y0, x1, y1) := b in
  in_box b px py &&
  ((2 * px - x0 - x1) ^ 2 * (y1 - y0) ^ 2 + (2 * py - y0 - y1) ^ 2 * (x1 - x0) ^ 2
   <=? (x1 - x0) ^ 2 * (y1 - y0) ^ 2).

Definition shrink (n : Z) (b : box) : box :=
  let '(x0, y0, x1, y1) := b in (x0 + n, y0 + n, x1 - n, y1 - n).

Definition sample_outline (b : box) (px py : Z) : bool :=
  sample_fill b px py && negb (sample_fill (shrink 1 b) px py).

Definition sample_arc (b : box) (start stop width px py : Z) : bool :=
  let '(x0, y0, x1, y1) := b in
  sample_fill b px py && negb (sample_fill (shrink width b) px py)
  && (2 * py <=? y0 + y1).

(** Relations between bounding boxes used to describe the layout. *)
Definition box_width (b : box) : Z := let '(x0, _, x1, _) := b in x1 - x0.

(** [a] ends left of the first column of [b]. *)
Definition left_of (a b : box) : Prop :=
  let '(_, _, a1, _) := a in let '(b0, _, _, _) := b in a1 < b0.

(** The shackle's box [arc] stands on the lock body [body]: it ends on the
    body's top edge, spans no more than the body's columns and is centred
    on the column [x]. *)
Definition stands_on (arc body : box) (x : Z) : Prop :=
  let '(a0, b0, a1, b1) := arc in
  let '(x0, y0, x1, y1) := body in
  b1 = y0 ∧ b0 ≤ b1 ∧ x0 ≤ a0 ∧ a1 ≤ x1 ∧ a0 + a1 = 2 * x.

(** A shape whose colours are all three-channel tuples. *)
Definition rgb_color (c : option color) : bool :=
  match c with
  | Some (Rgba _ _ _ _) => false
  | _ => true
  end.

Definition rgb_shape (s : shape) : bool :=
  match s with
  | Rectangle _ fill outline => rgb_color fill && rgb_color outline
  | Ellipse _ fill outline => rgb_color fill && rgb_color outline
  | Arc _ _ _ fill _ => rgb_color fill
  end.

(** The exceptions of the file system. *)
Definition is_fs_error (e : exn) : bool :=
  match e with
  | FileNotFoundError | FileExistsError | NotADirectoryError | IsADirectoryError => true
  | _ => false
  end.

(** How far the writes of [main] have got: none, one, two or all three of
    the icon files, in the order of the script. *)
Definition written_so_far (file : path) (f f' : gmap path content) : Prop :=
  f' = f ∨
  f' = <[app_icon_path file := Png app_icon_1024]> f ∨
  f' = <[foreground_icon_path file := Png foreground_icon_1024]>
         (<[app_icon_path file := Png app_icon_1024]> f) ∨
  f' = <[splash_icon_path file := Png splash_icon_512]>
         (<[foreground_icon_path file := Png foreground_icon_1024]>
            (<[app_icon_path file := Png app_icon_1024]> f)).

(** A file system ready for the first two writes, in which a regular file
    has the name of the splash directory. *)
Definition splash_blocked (file : path) (w : world) : bool :=
  os.is_dir w (os.dirname file)
  && negb (os.is_file w (os.dirname file))
  && negb (os.is_dir w (app_icon_path file))
  && negb (os.is_dir w (foreground_icon_path file))
  && forallb (λ q, negb (os.is_file w q))
             (prefixes_from [] (os.dirname (os.dirname file)))
  && os.is_file w (splash_dir file).

(** The project tree with a file named [splash] beside [icon]. *)
Definition w_blocked : world :=
  {| heap := [];
     dirs := {[ ["app"]; ["app"; "assets"]; ["app"; "assets"; "icon"] ]};
     files := {[ script_file := Other; ["app"; "assets"; "splash"] := Other ]};
     stdout := [] |}.

(** Arguments of a drawing routine with which every coordinate and width
    it passes on fits a 32-bit C integer, the range Pillow's drawing calls
    take without complaint. *)
Definition fits_int32 (x y size : Z) : Prop :=
  - 2 ^ 30 ≤ x < 2 ^ 30 ∧ - 2 ^ 30 ≤ y < 2 ^ 30 ∧ 0 ≤ size < 2 ^ 30.

(** The 32-bit range, as a bounding box. *)
Definition int32_box : box := (- 2 ^ 31, - 2 ^ 31, 2 ^ 31 - 1, 2 ^ 31 - 1).

(** The empty world, and one with earlier images, files and output. *)
Definition w_empty : world :=
  {| heap := []; dirs := ∅; files := ∅; stdout := [] |}.

Definition w_busy : world :=
  {| heap := [blank RGB 2 WHITE];
     dirs := {[ ["home"] ]};
     files := {[ ["home"; "old.png"] := Png (blank RGBA 1 GREEN) ]};
     stdout := ["hello"] |}.

Example int_mul_1024_0_7 : int_mul 1024 c_0_7 = Some 716.
Proof. vm_compute. reflexivity. Qed.

Example int_mul_90_0_7 : int_mul 90 c_0_7 = Some 62.
Proof. vm_compute. reflexivity. Qed.

(** ** Rounding to 53 bits *)

Lemma round53_small (p : Z) : 0 ≤ p < 2 ^ 53 → round53 p = p.
Proof.
  intros Hp. unfold round53.
  assert (Z.log2 p ≤ 52).
  { destruct (decide (p = 0)) as [->|]; [done|].
    assert (Z.log2 p < 53); [apply Z.log2_lt_pow2; lia|lia]. }
  destruct (Z.leb_spec (Z.log2 p - 52) 0); [done|lia].
Qed.

(** The relative error of [round53] is at most [2^-53]. *)
Lemma round53_err (p : Z) :
  0 ≤ p → p * (2 ^ 53 - 1) ≤ 2 ^ 53 * round53 p ≤ p * (2 ^ 53 + 1).
Proof.
  intros Hp. unfold round53.
  destruct (Z.leb_spec (Z.log2 p - 52) 0) as [|Hs]; [lia|].
  assert (0 < p) as Hpos.
  { destruct (decide (p = 0)) as [->|]; [|lia]. simpl in Hs. lia. }
  pose proof (Z.log2_spec p Hpos) as [Hlo _].
  set (sh := Z.log2 p - 52) in *.
  replace (Z.log2 p) with (52 + (1 + (sh - 1))) in Hlo by lia.
  rewrite !Z.pow_add_r, Z.pow_1_r in Hlo by lia.
  rewrite Z.shiftr_div_pow2, Z.land_ones, !Z.shiftl_mul_pow2 by lia.
  replace (2 ^ sh) with (2 * 2 ^ (sh - 1)) in *
    by (rewrite <- (Z.pow_succ_r 2 (sh - 1)) by lia; f_equal; lia).
  set (h := 2 ^ (sh - 1)) in *.
  assert (0 < h) by (apply Z.pow_pos_nonneg; lia).
  pose proof (Z.div_mod p (2 * h) ltac:(lia)) as Hdm.
  pose proof (Z.mod_pos_bound p (2 * h) ltac:(lia)) as Hr.
  set (q := p / (2 * h)) in *. set (r := p mod (2 * h)) in *.
  change (2 ^ 52) with 4503599627370496 in Hlo.
  change (2 ^ 53) with 9007199254740992.
  destruct (Z.ltb_spec h r); simpl.
  - nia.
  - destruct (Z.eqb_spec r h); simpl; [destruct (Z.odd q)|]; nia.
Qed.

Lemma round53_nonneg (p : Z) : 0 ≤ p → 0 ≤ round53 p.
Proof. intros Hp. pose proof (round53_err p Hp). lia. Qed.

Lemma sgn_mul_nonneg (a b : Z) : 0 ≤ a → (a = 0 → b = 0) → Z.sgn a * b = b.
Proof. intros Ha H0. destruct (decide (a = 0)) as [->|]; [rewrite H0|rewrite Z.sgn_pos]; lia. Qed.

(** [float(n)] is defined exactly when the rounded magnitude is finite. *)
Lemma int_to_float_nonneg (n : Z) :
  0 ≤ n →
  int_to_float n = if round53 n <? 2 ^ 1024 then Some (round53 n) else None.
Proof.
  intros Hn. unfold int_to_float. rewrite Z.abs_eq by lia.
  destruct (round53 n <? 2 ^ 1024); [|done].
  rewrite sgn_mul_nonneg; [done|lia|]. intros ->. by rewrite round53_small.
Qed.

Lemma int_mul_nonneg (n : Z) (c : dconst) :
  0 ≤ n → 0 ≤ mant c → 0 ≤ expo c →
  int_mul n c = if round53 n <? 2 ^ 1024
                then Some (round53 (round53 n * mant c) / 2 ^ expo c)
                else None.
Proof.
  intros Hn Hc He. unfold int_mul, mul_const.
  rewrite int_to_float_nonneg by done.
  destruct (round53 n <? 2 ^ 1024); [simpl|done].
  pose proof (round53_nonneg n Hn).
  rewrite Z.abs_eq by done.
  rewrite sgn_mul_nonneg; [|done|intros ->; by rewrite round53_small].
  f_equal. apply Z.quot_div_nonneg.
  - apply round53_nonneg. lia.
  - apply Z.pow_pos_nonneg; lia.
Qed.

(** Every size below [2^1023] converts to a double. *)
Lemma round53_finite (n : Z) : 0 ≤ n < 2 ^ 1023 → round53 n < 2 ^ 1024.
Proof.
  intros Hn. pose proof (round53_err n ltac:(lia)) as He.
  change (2 ^ 1024) with (2 * 2 ^ 1023).
  change (2 ^ 53) with 9007199254740992 in He. lia.
Qed.

(** What [int(n * c)] is, as linear facts: [F] is [float(n)], [A] the
    rounded product scaled by [2^expo c], [k] the result. *)
Lemma int_mul_spec (n : Z) (c : dconst) (k : Z) :
  0 ≤ n → 0 ≤ mant c → 0 ≤ expo c → int_mul n c = Some k →
  ∃ F A,
    (n < 2 ^ 53 → F = n) ∧ F < 2 ^ 1024 ∧
    n * (2 ^ 53 - 1) ≤ 2 ^ 53 * F ≤ n * (2 ^ 53 + 1) ∧
    (F * mant c) * (2 ^ 53 - 1) ≤ 2 ^ 53 * A ≤ (F * mant c) * (2 ^ 53 + 1) ∧
    2 ^ expo c * k ≤ A < 2 ^ expo c * (k + 1).
Proof.
  intros Hn Hc He. rewrite int_mul_nonneg by done.
  destruct (Z.ltb_spec (round53 n) (2 ^ 1024)) as [Hfin|]; [|done].
  intros [= <-].
  exists (round53 n), (round53 (round53 n * mant c)).
  pose proof (round53_nonneg n Hn).
  assert (0 < 2 ^ expo c) by (apply Z.pow_pos_nonneg; lia).
  split; [intros; apply round53_small; lia|].
  split; [done|].
  split; [apply round53_err; lia|].
  split; [apply round53_err; lia|].
  split; [apply Z.mul_div_le; lia|apply Z.mul_succ_div_gt; lia].
Qed.

Lemma int_mul_defined (n : Z) (c : dconst) :
  0 ≤ n < 2 ^ 1023 → 0 ≤ mant c → 0 ≤ expo c → is_Some (int_mul n c).
Proof.
  intros Hn Hc He. rewrite int_mul_nonneg by (done || lia).
  pose proof (round53_finite n Hn).
  destruct (Z.ltb_spec (round53 n) (2 ^ 1024)); [eauto|lia].
Qed.

Ltac int_mul_facts H :=
  let F := fresh "F" in let A := fresh "A" in
  let HF := fresh "HF" in let HFe := fresh "HFe" in let Hfin := fresh "Hfin" in
  let HA := fresh "HA" in let Hq := fresh "Hq" in
  let H' := fresh in
  pose proof H as H';
  apply int_mul_spec in H' as (F & A & HFe & Hfin & HF & HA & Hq);
    [|lia|simpl; lia|simpl; lia];
  cbn [mant expo c_0_4 c_0_7 c_0_075 c_0_35 c_0_68 c_0_09 c_0_6] in HA, Hq;
  change (2 ^ 53) with 9007199254740992 in *;
  change (2 ^ 54) with 18014398509481984 in *;
  change (2 ^ 56) with 72057594037927936 in *.

Lemma factors_wf (c : dconst) : c ∈ factors → 0 ≤ mant c ∧ 0 ≤ expo c.
Proof.
  unfold factors. intros Hc.
  repeat (apply elem_of_cons in Hc as [->|Hc]); [..|by apply elem_of_nil in Hc];
    simpl; lia.
Qed.

(** Each factor is below one: the scaled size is no larger than the size. *)
Lemma int_mul_le (n : Z) (c : dconst) (k : Z) :
  c ∈ factors → 0 ≤ n → int_mul n c = Some k → 0 ≤ k ≤ n.
Proof.
  intros Hc Hn Hk. unfold factors in Hc.
  repeat (apply elem_of_cons in Hc as [->|Hc]); [..|by apply elem_of_nil in Hc];
    int_mul_facts Hk; lia.
Qed.

Lemma int_mul_total (n : Z) (c : dconst) :
  c ∈ factors → 0 ≤ n < 2 ^ 1023 →
  ∃ k, int_mul n c = Some k ∧ 0 ≤ k ≤ n.
Proof.
  intros Hc Hn. destruct (factors_wf c Hc).
  destruct (int_mul_defined n c) as [k Hk]; [done..|].
  exists k. split; [done|]. eapply int_mul_le; [done|lia|done].
Qed.

(** ** Running drawing routines on a live image *)

Lemma add_layers_nil (im : image) : add_layers [] im = im.
Proof. destruct im. unfold add_layers. simpl. by rewrite app_nil_r. Qed.

Lemma add_layers_app (l1 l2 : list shape) (im : image) :
  add_layers l2 (add_layers l1 im) = add_layers (l1 ++ l2) im.
Proof. unfold add_layers. simpl. by rewrite app_assoc. Qed.

Lemma set_heap_id (w : world) (i : nat) (im : image) :
  heap w !! i = Some im → set_heap (<[i := im]> (heap w)) w = w.
Proof. intros H. rewrite list_insert_id by done. by destruct w. Qed.

Section Trace.
Context {A B : Type}.
Implicit Types (i : nat) (ls : list shape).

Lemma has_trace_ret (a : A) i : has_trace (mret a) i (Ok a) [].
Proof. intros w im Hi. by rewrite add_layers_nil, set_heap_id. Qed.

Lemma has_trace_raise (e : exn) i : has_trace (raise e : M A) i (Raise e) [].
Proof. intros w im Hi. by rewrite add_layers_nil, set_heap_id. Qed.

Lemma has_trace_bind_ok (m : M A) (k : A → M B) i a l1 r l2 :
  has_trace m i (Ok a) l1 → has_trace (k a) i r l2 →
  has_trace (m ≫= k) i r (l1 ++ l2).
Proof.
  intros Hm Hk w im Hi. unfold mbind, M_bind.
  rewrite (Hm w im Hi).
  rewrite (Hk _ (add_layers l1 im)); simpl.
  - by rewrite list_insert_insert_eq, add_layers_app.
  - apply list_lookup_insert_eq. by eapply lookup_lt_Some.
Qed.

Lemma has_trace_bind_raise (m : M A) (k : A → M B) i e l1 :
  has_trace m i (Raise e) l1 → has_trace (m ≫= k) i (Raise e) l1.
Proof. intros Hm w im Hi. unfold mbind, M_bind. by rewrite (Hm w im Hi). Qed.
End Trace.

Lemma has_trace_draw_shape (s : shape) (i : nat) :
  has_trace (ImageDraw.draw_shape {| ImageDraw.target := i |} s) i (Ok tt) [s].
Proof. intros w im Hi. unfold ImageDraw.draw_shape. simpl. by rewrite Hi. Qed.

(** A routine adds the same shapes to the blank canvas as to any other. *)
Lemma drawn_has_trace {A} (routine : ImageDraw.t → M A) r ls :
  has_trace (routine {| ImageDraw.target := 0 |}) 0 r ls → drawn routine = (r, ls).
Proof. intros H. unfold drawn. by rewrite (H canvas_world _ eq_refl). Qed.

Lemma has_trace_int_times (n : Z) (c : dconst) (k : Z) (i : nat) :
  int_mul n c = Some k → has_trace (int_times n c) i (Ok k) [].
Proof. intros H. unfold int_times. rewrite H. apply has_trace_ret. Qed.

Lemma has_trace_eq {A} (m : M A) i r l l' :
  has_trace m i r l → l = l' → has_trace m i r l'.
Proof. by intros H <-. Qed.

Ltac trace_step :=
  lazymatch goal with
  | |- has_trace (mret _) _ _ _ => apply has_trace_ret
  | |- has_trace (raise _) _ _ _ => apply has_trace_raise
  | |- has_trace (ImageDraw.rectangle _ _ _ _) _ _ _ => apply has_trace_draw_shape
  | |- has_trace (ImageDraw.ellipse _ _ _ _) _ _ _ => apply has_trace_draw_shape
  | |- has_trace (ImageDraw.arc _ _ _ _ _ _) _ _ _ => apply has_trace_draw_shape
  | |- has_trace (int_times _ _) _ _ _ => apply has_trace_int_times; eassumption
  | |- has_trace (_ ≫= _) _ (Ok _) _ => eapply has_trace_bind_ok
  end.

Ltac trace_run := eapply has_trace_eq; [repeat trace_step|try reflexivity].

Lemma has_trace_int_fails (n : Z) (c : dconst) (i : nat) :
  int_mul n c = None → has_trace (int_times n c) i (Raise OverflowError) [].
Proof. intros H. unfold int_times. rewrite H. apply has_trace_raise. Qed.

Lemma draw_notebook_trace (i : nat) (x y size : Z) (color : color) :
  has_trace (draw_notebook {| ImageDraw.target := i |} x y size color) i
    (notebook_trace x y size color).1 (notebook_trace x y size color).2.
Proof.
  unfold notebook_trace, draw_notebook.
  destruct (int_mul size c_0_6) as [lw|] eqn:Hlw; simpl fst; simpl snd.
  - change (range 3) with [0; 1; 2]. cbn [for_each]. trace_run.
  - eapply has_trace_eq.
    + eapply has_trace_bind_ok; [trace_step|].
      eapply has_trace_bind_ok; [trace_step|].
      apply has_trace_bind_raise. by apply has_trace_int_fails.
    + reflexivity.
Qed.

Lemma draw_lock_badge_trace (i : nat) (x y size : Z) :
  has_trace (draw_lock_badge {| ImageDraw.target := i |} x y size) i
    (badge_trace x y size).1 (badge_trace x y size).2.
Proof.
  unfold badge_trace, draw_lock_badge.
  destruct (int_mul size c_0_6) as [lh|] eqn:Hlh; simpl fst; simpl snd.
  - trace_run.
  - eapply has_trace_eq.
    + eapply has_trace_bind_ok; [trace_step|].
      apply has_trace_bind_raise. by apply has_trace_int_fails.
    + reflexivity.
Qed.

Lemma icon_body_trace (i : nat) (size : Z) (cn cb cr : dconst) :
  has_trace (icon_body i size cn cb cr) i
    (ref_result (icon_trace size cn cb cr) i) (icon_trace size cn cb cr).2.
Proof.
  unfold icon_body, icon_trace, ref_result.
  eapply has_trace_eq; [eapply has_trace_bind_ok; [apply has_trace_ret|]|done].
  destruct (int_mul size cn) as [n|] eqn:Hn; simpl fst; simpl snd;
    [|by apply has_trace_bind_raise, has_trace_int_fails].
  eapply has_trace_eq; [eapply has_trace_bind_ok; [trace_step|]|done].
  pose proof (draw_notebook_trace i (size / 2) (size / 2) n WHITE) as Hnb.
  destruct (notebook_trace (size / 2) (size / 2) n WHITE) as [[[]|e] l1];
    simpl in Hnb |- *; [|by apply has_trace_bind_raise].
  destruct (int_mul size cb) as [bx|] eqn:Hbx; simpl.
  2:{ eapply has_trace_eq; [eapply has_trace_bind_ok; [exact Hnb|]|].
      - by apply has_trace_bind_raise, has_trace_int_fails.
      - done. }
  destruct (int_mul size cr) as [r|] eqn:Hr; simpl.
  2:{ eapply has_trace_eq; [eapply has_trace_bind_ok; [exact Hnb|]|].
      - do 2 (eapply has_trace_bind_ok; [trace_step|]).
        by apply has_trace_bind_raise, has_trace_int_fails.
      - done. }
  pose proof (draw_lock_badge_trace i bx bx r) as Hb.
  destruct (badge_trace bx bx r) as [[[]|e] l2]; simpl in Hb |- *.
  - eapply has_trace_eq; [eapply has_trace_bind_ok; [exact Hnb|]|].
    + do 3 (eapply has_trace_bind_ok; [trace_step|]).
      eapply has_trace_bind_ok; [exact Hb|apply has_trace_ret].
    + simpl. by rewrite app_nil_r.
  - eapply has_trace_eq; [eapply has_trace_bind_ok; [exact Hnb|]|].
    + do 3 (eapply has_trace_bind_ok; [trace_step|]).
      apply has_trace_bind_raise. exact Hb.
    + done.
Qed.

Lemma new_then_body (m : mode) (c : color) (size : Z) (cn cb cr : dconst) (w : world) :
  (img ← Image.new m (size, size) c; icon_body img size cn cb cr) w
  = icon_outcome m c size cn cb cr w.
Proof.
  unfold icon_outcome, mbind, M_bind, Image.new. simpl.
  rewrite orb_diag. destruct (size <? 0); [done|].
  rewrite (icon_body_trace (length (heap w)) size cn cb cr _ (blank m size c));
    simpl; [|by apply list_lookup_middle].
  by rewrite insert_app_r_alt, Nat.sub_diag.
Qed.

Lemma generate_app_icon_run (size : Z) (w : world) :
  generate_app_icon size w = icon_outcome RGB BG_COLOR size c_0_4 c_0_7 c_0_075 w.
Proof. apply new_then_body. Qed.

Lemma generate_foreground_icon_run (size : Z) (w : world) :
  generate_foreground_icon size w
  = icon_outcome RGBA (Rgba 0 0 0 0) size c_0_4 c_0_7 c_0_075 w.
Proof. apply new_then_body. Qed.

Lemma generate_splash_icon_run (size : Z) (w : world) :
  generate_splash_icon size w
  = icon_outcome RGBA (Rgba 0 0 0 0) size c_0_35 c_0_68 c_0_09 w.
Proof. apply new_then_body. Qed.

(** ** The generators as functions of the size *)

Lemma returned_icon_outcome m c size cn cb cr w :
  returned (icon_outcome m c size cn cb cr w) = icon_image m c size cn cb cr.
Proof.
  unfold icon_outcome, icon_image, ref_result, returned.
  destruct (size <? 0); [done|].
  destruct (icon_trace size cn cb cr).1; [|done].
  simpl. by rewrite list_lookup_middle.
Qed.

Lemma outside_icon_outcome m c size cn cb cr w :
  outside (icon_outcome m c size cn cb cr w).2 = outside w.
Proof. unfold icon_outcome. by destruct (size <? 0). Qed.

(** A second call leaves the image of the first as it was. *)
Lemma icon_outcome_twice m c size cn cb cr w :
  returned ((icon_outcome m c size cn cb cr w).1,
            (icon_outcome m c size cn cb cr (icon_outcome m c size cn cb cr w).2).2)
  = returned (icon_outcome m c size cn cb cr w).
Proof.
  unfold icon_outcome, ref_result, returned.
  destruct (size <? 0); simpl; [done|].
  destruct (icon_trace size cn cb cr).1; [|done].
  simpl. rewrite lookup_app_l by (rewrite length_app; simpl; lia).
  done.
Qed.

Lemma generators_run gen :
  gen ∈ generators →
  ∃ m c cn cb cr,
    cn ∈ factors ∧ cb ∈ factors ∧ cr ∈ factors ∧
    ∀ size w, gen size w = icon_outcome m c size cn cb cr w.
Proof.
  unfold generators, factors. intros H.
  repeat (apply elem_of_cons in H as [->|H]); [..|by apply elem_of_nil in H].
  - exists RGB, BG_COLOR, c_0_4, c_0_7, c_0_075.
    repeat split; [set_solver..|apply generate_app_icon_run].
  - exists RGBA, (Rgba 0 0 0 0), c_0_4, c_0_7, c_0_075.
    repeat split; [set_solver..|apply generate_foreground_icon_run].
  - exists RGBA, (Rgba 0 0 0 0), c_0_35, c_0_68, c_0_09.
    repeat split; [set_solver..|apply generate_splash_icon_run].
Qed.

Lemma same_outcome_refl r : same_outcome r r.
Proof. by destruct r. Qed.

Lemma factor_0_6 : c_0_6 ∈ factors.
Proof. unfold factors. set_solver. Qed.

(** C1: each generator's image is a function of the requested size only.
    Two calls with the same size, started in any two worlds (so also one
    after the other), return the same image value (same mode, size,
    background and shapes, hence the same pixels under every rasteriser) or
    raise the same exception; a call changes nothing outside the image
    objects, and a later call does not disturb the image of an earlier
    one. *)
Theorem generators_deterministic (gen : Z → M nat) (s : Z) (w1 w2 : world) :
  gen ∈ generators → 0 < s →
  returned (gen s w1) = returned (gen s w2) ∧
  same_outcome (returned (gen s w1)) (returned (gen s w2)) ∧
  outside (gen s w1).2 = outside w1 ∧
  returned ((gen s w1).1, (gen s (gen s w1).2).2) = returned (gen s w1).
Proof.
  intros Hgen Hs.
  destruct (generators_run gen Hgen) as (m & c & cn & cb & cr & Hn & Hb & Hr & Hrun).
  rewrite !Hrun, icon_outcome_twice, !returned_icon_outcome.
  split; [done|]. split; [apply same_outcome_refl|].
  split; [apply outside_icon_outcome|]. done.
Qed.

(** The theorem at the size of the app icon, in two different worlds. *)
Lemma generators_deterministic_at_1024 :
  returned (generate_app_icon 1024 w_empty) = returned (generate_app_icon 1024 w_busy).
Proof.
  apply (generators_deterministic generate_app_icon 1024 w_empty w_busy).
  - apply list_elem_of_here.
  - reflexivity.
Defined.

Lemma notebook_trace_inv x y size color ls :
  notebook_trace x y size color = (Ok tt, ls) →
  ∃ lw, int_mul size c_0_6 = Some lw ∧ ls = notebook_shapes x y size color lw.
Proof.
  unfold notebook_trace. destruct (int_mul size c_0_6) as [lw|]; [|done].
  intros [= <-]. eauto.
Qed.

Lemma badge_trace_inv x y size ls :
  badge_trace x y size = (Ok tt, ls) →
  ∃ lh, int_mul size c_0_6 = Some lh ∧ ls = badge_shapes x y size lh.
Proof.
  unfold badge_trace. destruct (int_mul size c_0_6) as [lh|]; [|done].
  intros [= <-]. eauto.
Qed.

(** What a generator has drawn when it returns. *)
Lemma icon_image_inv m c size cn cb cr im :
  icon_image m c size cn cb cr = Ok im →
  0 ≤ size ∧
  ∃ n lw bx r lh,
    int_mul size cn = Some n ∧ int_mul n c_0_6 = Some lw ∧
    int_mul size cb = Some bx ∧ int_mul size cr = Some r ∧
    int_mul r c_0_6 = Some lh ∧
    im = {| im_mode := m; im_size := (size, size); im_fill := c;
            im_layers := notebook_shapes (size / 2) (size / 2) n WHITE lw
                         ++ badge_shapes bx bx r lh |}.
Proof.
  unfold icon_image, icon_trace. destruct (Z.ltb_spec size 0); [done|].
  destruct (int_mul size cn) as [n|]; [|done].
  destruct (notebook_trace _ _ _ _) as [[[]|] l1] eqn:Hnb; [|done].
  apply notebook_trace_inv in Hnb as (lw & Hlw & ->).
  destruct (int_mul size cb) as [bx|]; [|done].
  destruct (int_mul size cr) as [r|]; [|done].
  destruct (badge_trace _ _ _) as [[[]|] l2] eqn:Hb; [|done].
  apply badge_trace_inv in Hb as (lh & Hlh & ->).
  intros [= <-]. split; [done|]. by exists n, lw, bx, r, lh.
Qed.

(** ** Where the badge sits *)

Lemma midpoint (x r : Z) : (x - r + (x + r)) / 2 = x.
Proof. replace (x - r + (x + r)) with (x * 2) by lia. by apply Z.div_mul. Qed.






(** ** The shapes of the two drawing routines *)

Lemma draw_notebook_ok (i : nat) (x y size : Z) (color : color) (lw : Z) :
  int_mul size c_0_6 = Some lw →
  has_trace (draw_notebook {| ImageDraw.target := i |} x y size color) i
    (Ok tt) (notebook_shapes x y size color lw).
Proof.
  intros H. pose proof (draw_notebook_trace i x y size color) as Ht.
  unfold notebook_trace in Ht. by rewrite H in Ht.
Qed.


(** [int(size * 0.6)] is [0.6 * size] up to rounding. *)
Lemma int_mul_0_6_near (size k : Z) :
  0 ≤ size < 2 ^ 51 → int_mul size c_0_6 = Some k → 3 * size - 5 ≤ 5 * k ≤ 3 * size.
Proof.
  intros Hs Hk. change (2 ^ 51) with 2251799813685248 in Hs.
  int_mul_facts Hk. rewrite HFe in * by lia. lia.
Qed.

(** C7: for every size > 0 and centre [(x, y)], a call of [draw_notebook]
    that ends normally has drawn the body, the spine and exactly three
    page-line rectangles, for [i = 0, 1, 2]: vertically centred on
    [y + (i - 1) * (size // 6)], reaching [(size // 25) // 2] above and
    below it, starting [size // 5] right of the body's left edge
    [x - size // 2], and [int(size * 0.6)] wide.  The call does end normally
    when the centre and the size keep every coordinate within 32 bits.  The
    vertical extent is [size // 25] rounded down to an even number and the
    width is [0.6 * size] within a pixel. *)
Theorem draw_notebook_page_lines (x y size : Z) (color : color) :
  0 < size →
  (size < 2 ^ 1023 → is_Some (int_mul size c_0_6)) ∧
  ∀ lw, int_mul size c_0_6 = Some lw →
    (fits_int32 x y size →
       (∀ i, has_trace (draw_notebook {| ImageDraw.target := i |} x y size color) i
               (Ok tt) (notebook_shapes x y size color lw)) ∧
       drawn (λ d, draw_notebook d x y size color)
         = (Ok tt, notebook_shapes x y size color lw)) ∧
    (∀ ls, drawn (λ d, draw_notebook d x y size color) = (Ok tt, ls) →
           ls = notebook_shapes x y size color lw) ∧
    page_lines (notebook_shapes x y size color lw)
      = map (λ i, let left := x - size / 2 in
                  let line_y := y + (i - 1) * (size / 6) in
                  (left + size / 5, line_y - size / 25 / 2,
                   left + size / 5 + lw, line_y + size / 25 / 2)) [0; 1; 2] ∧
    size / 25 - 1 ≤ 2 * (size / 25 / 2) ≤ size / 25 ∧
    (size < 2 ^ 51 → near lw (3 * size) 5).
Proof.
  intros Hs. split.
  { intros Hlt. apply int_mul_defined; simpl; lia. }
  intros lw Hlw.
  pose proof (drawn_has_trace (λ d, draw_notebook d x y size color) _ _
                (draw_notebook_ok 0 x y size color lw Hlw)) as Hd.
  split.
  { intros _. split; [intros i; by apply draw_notebook_ok|done]. }
  split; [intros ls; rewrite Hd; congruence|].
  split; [done|].
  split; [Z.div_mod_to_equations; lia|].
  intros Hlt. pose proof (int_mul_0_6_near size lw ltac:(lia) Hlw).
  unfold near. lia.
Qed.



Lemma fits_int32_716_76 : fits_int32 716 716 76.
Proof. unfold fits_int32. lia. Qed.

Lemma fits_int32_512_409 : fits_int32 512 512 409.
Proof. unfold fits_int32. lia. Qed.


(** The notebook of the 1024-pixel app icon: size [409] at [(512, 512)];
    the call ends normally and the three page lines are [245] wide and
    [16] high, [68] apart. *)
Lemma draw_notebook_page_lines_at_409 :
  int_mul 409 c_0_6 = Some 245 ∧
  drawn (λ d, draw_notebook d 512 512 409 WHITE)
    = (Ok tt, notebook_shapes 512 512 409 WHITE 245) ∧
  page_lines (notebook_shapes 512 512 409 WHITE 245)
    = [(389, 436, 634, 452); (389, 504, 634, 520); (389, 572, 634, 588)] ∧
  near 245 (3 * 409) 5.
Proof.
  destruct (draw_notebook_page_lines 512 512 409 WHITE eq_refl) as [_ H].
  destruct (H 245 eq_refl) as (Hrun & _ & Hlines & _ & Hnear).
  split; [reflexivity|].
  split; [exact (proj2 (Hrun fits_int32_512_409))|].
  split; [exact Hlines|].
  exact (Hnear eq_refl).
Defined.

(** ** The badge at sizes below seven *)




(** ** The badge stays on the canvas *)

Lemma disk_fits_app (s bx r : Z) :
  1 ≤ s → int_mul s c_0_7 = Some bx → int_mul s c_0_075 = Some r →
  0 ≤ r ∧ 0 ≤ bx - r ∧ bx + r ≤ s - 1.
Proof. intros Hs Hbx Hr. int_mul_facts Hbx. int_mul_facts Hr. lia. Qed.

Lemma disk_fits_splash (s bx r : Z) :
  1 ≤ s → int_mul s c_0_68 = Some bx → int_mul s c_0_09 = Some r →
  0 ≤ r ∧ 0 ≤ bx - r ∧ bx + r ≤ s - 1.
Proof. intros Hs Hbx Hr. int_mul_facts Hbx. int_mul_facts Hr. lia. Qed.



(** ** Foreground icon against app icon *)

(** C5: for every size [s > 0], [generate_foreground_icon(s)] is the app
    icon's drawing on a transparent RGBA canvas: it makes the same calls
    with the same arguments and ends the same way, the two images have the
    same size and the same shapes (a notebook of size [int(0.4*s)] centred
    at [(s // 2, s // 2)], a badge of size [int(0.075*s)] at
    [(int(0.7*s), int(0.7*s))]) and differ only in mode and background. *)
Theorem foreground_same_geometry (s : Z) (w w' : world) :
  0 < s →
  generate_foreground_icon s w = foreground_as_described s w ∧
  generate_app_icon s w = app_icon_on RGB BG_COLOR s w ∧
  differ_in_canvas_only s (returned (generate_app_icon s w))
                          (returned (generate_foreground_icon s w')) ∧
  (∀ f, returned (generate_foreground_icon s w') = Ok f →
     ∃ n lw bx r lh,
       int_mul s c_0_4 = Some n ∧ int_mul n c_0_6 = Some lw ∧
       int_mul s c_0_7 = Some bx ∧ int_mul s c_0_075 = Some r ∧
       int_mul r c_0_6 = Some lh ∧
       im_layers f = notebook_shapes (s / 2) (s / 2) n WHITE lw
                     ++ badge_shapes bx bx r lh).
Proof.
  intros Hs. split; [done|]. split; [done|].
  rewrite generate_app_icon_run, generate_foreground_icon_run,
    !returned_icon_outcome.
  split.
  - unfold differ_in_canvas_only, icon_image.
    destruct (Z.ltb_spec s 0); [lia|].
    by destruct (icon_trace s c_0_4 c_0_7 c_0_075).1.
  - intros f (_ & n & lw & bx & r & lh & ? & ? & ? & ? & ? & ->)%icon_image_inv.
    by exists n, lw, bx, r, lh.
Qed.

(** The two 1024-pixel icons, generated in different worlds. *)
Lemma foreground_same_geometry_at_1024 :
  differ_in_canvas_only 1024 (returned (generate_app_icon 1024 w_empty))
                             (returned (generate_foreground_icon 1024 w_busy)).
Proof.
  apply (foreground_same_geometry 1024 w_empty w_busy). reflexivity.
Defined.

(** ** Every shape stays inside the notebook square or the badge square *)

Lemma in_box_within (inner outer : box) (px py : Z) :
  within inner outer → in_box inner px py = true → in_box outer px py = true.
Proof.
  destruct inner as [[[a0 b0] a1] b1], outer as [[[x0 y0] x1] y1].
  unfold within, in_box. rewrite !andb_true_iff, !Z.leb_le. lia.
Qed.

Lemma page_line_fits (size lw : Z) :
  0 ≤ size → int_mul size c_0_6 = Some lw →
  0 ≤ lw ∧ size / 5 + lw ≤ size / 2 + size / 2.
Proof.
  intros Hs Hlw. int_mul_facts Hlw. Z.div_mod_to_equations. lia.
Qed.

Lemma notebook_within (x y size : Z) (color : color) (lw : Z) (sh : shape) :
  0 ≤ size → int_mul size c_0_6 = Some lw →
  sh ∈ notebook_shapes x y size color lw →
  within (bbox sh) (x - size / 2, y - size / 2, x + size / 2, y + size / 2).
Proof.
  intros Hs Hlw Hin. pose proof (page_line_fits size lw Hs Hlw) as [? ?].
  unfold notebook_shapes in Hin. simpl in Hin.
  repeat (apply elem_of_cons in Hin as [->|Hin]); [..|by apply elem_of_nil in Hin];
    unfold within; simpl; Z.div_mod_to_equations; lia.
Qed.

Lemma lock_fits (size lh : Z) :
  0 ≤ size → int_mul size c_0_6 = Some lh → 0 ≤ lh ≤ size.
Proof. intros Hs Hlh. int_mul_facts Hlh. lia. Qed.

Lemma badge_within (x y size lh : Z) (sh : shape) :
  0 ≤ size → int_mul size c_0_6 = Some lh →
  sh ∈ badge_shapes x y size lh →
  within (bbox sh) (x - size, y - size, x + size, y + size).
Proof.
  intros Hs Hlh Hin. pose proof (lock_fits size lh Hs Hlh).
  unfold badge_shapes in Hin.
  repeat (apply elem_of_cons in Hin as [->|Hin]); [..|by apply elem_of_nil in Hin];
    unfold within; simpl; Z.div_mod_to_equations; lia.
Qed.

(** ** Transparency *)

Section Pixels.
Variable fm om : box → Z → Z → bool.
Variable am : box → Z → Z → Z → Z → Z → bool.

Lemma pixel_under_untouched (m : mode) (ls : list shape) (base : color) (px py : Z) :
  (∀ sh, sh ∈ ls → touched fm om am sh px py = false) →
  pixel_under fm om am m ls base px py = base.
Proof.
  unfold pixel_under, touched. revert base.
  induction ls as [|sh ls IH]; intros base Hun; simpl; [done|].
  pose proof (Hun sh ltac:(left)) as Hsh.
  destruct (paint fm om am sh px py); [done|].
  apply IH. intros sh' Hin. apply Hun. by right.
Qed.





Lemma getpixel_untouched (im : image) (px py : Z) :
  in_canvas im px py = true →
  (∀ sh, sh ∈ im_layers im → touched fm om am sh px py = false) →
  getpixel fm om am im px py = Some (ink (im_mode im) (im_fill im)).
Proof.
  intros Hin Hun. unfold getpixel, when. rewrite Hin.
  f_equal. by apply pixel_under_untouched.
Qed.

Lemma touched_in_bbox (sh : shape) (px py : Z) :
  boxed fm om am → touched fm om am sh px py = true →
  in_box (bbox sh) px py = true.
Proof.
  intros Hb. unfold touched.
  destruct sh as [xy fill outline|xy fill outline|xy start stop fill width];
    simpl; destruct (Hb xy px py) as (Hf & Ho & Ha).
  - unfold on_edge. destruct xy as [[[x0 y0] x1] y1].
    destruct (in_box (x0, y0, x1, y1) px py); [done|].
    rewrite andb_false_l. by destruct outline, fill.
  - destruct (om xy px py); [by rewrite Ho|].
    destruct (fm xy px py); [by rewrite Hf|]. by destruct outline, fill.
  - destruct (am xy start stop width px py) eqn:E; [by rewrite (Ha _ _ _ E)|].
    by destruct fill.
Qed.

Lemma untouched_outside (ls : list shape) (nb bd : box) (px py : Z) :
  boxed fm om am →
  (∀ sh, sh ∈ ls → within (bbox sh) nb ∨ within (bbox sh) bd) →
  in_box nb px py = false → in_box bd px py = false →
  ∀ sh, sh ∈ ls → touched fm om am sh px py = false.
Proof.
  intros Hb Hw Hnb Hbd sh Hin.
  destruct (touched fm om am sh px py) eqn:Ht; [|done].
  apply (touched_in_bbox _ _ _ Hb) in Ht.
  destruct (Hw sh Hin) as [H|H]; apply (in_box_within _ _ px py) in H; congruence.
Qed.


End Pixels.

(** ** The run of the script *)

(** The project tree is ready for a run. *)
Lemma fs_ready_at_project : fs_ready script_file w_project = true.
Proof. vm_compute. reflexivity. Qed.

Lemma icon_outcome_ok m c size cn cb cr w :
  0 ≤ size → (icon_trace size cn cb cr).1 = Ok tt →
  icon_outcome m c size cn cb cr w
  = (Ok (length (heap w)),
     set_heap (heap w ++ [image_of (icon_image m c size cn cb cr)]) w).
Proof.
  intros Hs Ht. unfold icon_outcome, icon_image, ref_result.
  destruct (Z.ltb_spec size 0); [lia|]. by rewrite Ht.
Qed.

Lemma generate_app_icon_1024 (w : world) :
  generate_app_icon 1024 w
  = (Ok (length (heap w)), set_heap (heap w ++ [app_icon_1024]) w).
Proof.
  rewrite generate_app_icon_run. apply icon_outcome_ok; [lia|].
  vm_compute. reflexivity.
Qed.

Lemma generate_foreground_icon_1024 (w : world) :
  generate_foreground_icon 1024 w
  = (Ok (length (heap w)), set_heap (heap w ++ [foreground_icon_1024]) w).
Proof.
  rewrite generate_foreground_icon_run. apply icon_outcome_ok; [lia|].
  vm_compute. reflexivity.
Qed.

Lemma generate_splash_icon_512 (w : world) :
  generate_splash_icon 512 w
  = (Ok (length (heap w)), set_heap (heap w ++ [splash_icon_512]) w).
Proof.
  rewrite generate_splash_icon_run. apply icon_outcome_ok; [lia|].
  vm_compute. reflexivity.
Qed.

Lemma prefixes_from_length (pre : path) (rest : list string) (q : path) :
  q ∈ prefixes_from pre rest →
  (length pre < length q ≤ length pre + length rest)%nat ∧
  (length q = (length pre + length rest)%nat → q = pre ++ rest).
Proof.
  revert pre. induction rest as [|c rest IH]; intros pre; simpl.
  - by intros ?%elem_of_nil.
  - intros [->|Hq]%elem_of_cons.
    + rewrite length_app. simpl. split; [lia|].
      intros Hl. assert (rest = []) as -> by (apply length_zero_iff_nil; lia). done.
    + apply IH in Hq as [Hlen Hfull]. rewrite length_app in Hlen, Hfull.
      simpl in Hlen, Hfull. split; [lia|].
      intros Hl. rewrite Hfull by lia. by rewrite <- app_assoc.
Qed.

Lemma prefixes_from_full (pre : path) (rest : list string) :
  rest ≠ [] → pre ++ rest ∈ prefixes_from pre rest.
Proof.
  revert pre. induction rest as [|c rest IH]; intros pre Hne; [done|].
  simpl. destruct rest as [|c' rest].
  - left.
  - right. specialize (IH (pre ++ [c]) ltac:(done)).
    by rewrite <- app_assoc in IH.
Qed.

Lemma makedirs_from_run (pre : path) (rest : list string) (w : world) :
  (∀ q, q ∈ prefixes_from pre rest → os.is_file w q = false) →
  os.makedirs_from pre rest w
  = (Ok tt, set_dirs (list_to_set (prefixes_from pre rest) ∪ dirs w) w).
Proof.
  revert pre w. induction rest as [|c rest IH]; intros pre w Hfree; simpl.
  - unfold mret, M_ret. f_equal. destruct w. unfold set_dirs. simpl.
    f_equal. set_solver.
  - unfold mbind, M_bind. rewrite Hfree by left.
    rewrite IH.
    + unfold set_dirs. simpl. do 2 f_equal. set_solver.
    + intros q Hq. unfold os.is_file. simpl. apply Hfree. by right.
Qed.

Lemma is_file_false (w : world) (p : path) :
  os.is_file w p = false → files w !! p = None.
Proof.
  unfold os.is_file. intros H%bool_decide_eq_false.
  destruct (files w !! p) eqn:E; [|done]. destruct H. eauto.
Qed.

Lemma makedirs_from_inv (pre : path) (rest : list string) (w w' : world) :
  os.makedirs_from pre rest w = (Ok tt, w') →
  ∀ q, q ∈ prefixes_from pre rest → files w !! q = None.
Proof.
  revert pre w. induction rest as [|c rest IH]; intros pre w; simpl.
  - intros _ q ?%elem_of_nil. done.
  - unfold mbind, M_bind.
    destruct (os.is_file w (pre ++ [c])) eqn:Ef; [discriminate|].
    intros Hrun q [->|Hq]%elem_of_cons.
    + by apply is_file_false.
    + apply (IH _ _ Hrun q Hq).
Qed.

Ltac simpl_world :=
  cbn [heap dirs files stdout set_heap set_dirs set_files set_stdout].

(** The steps of [main] on a world given field by field. *)
Section Steps.
Context {B : Type}.
Variables (h : list image) (d : gset path) (f : gmap path content) (o : list string).

Lemma print_then (line : string) (k : M B) :
  (print line ;; k) {| heap := h; dirs := d; files := f; stdout := o |}
  = k {| heap := h; dirs := d; files := f; stdout := o ++ [line] |}.
Proof. done. Qed.

Lemma generate_then (gen : M nat) (im : image) (k : nat → M B) :
  (∀ w, gen w = (Ok (length (heap w)), set_heap (heap w ++ [im]) w)) →
  (gen ≫= k) {| heap := h; dirs := d; files := f; stdout := o |}
  = k (length h) {| heap := h ++ [im]; dirs := d; files := f; stdout := o |}.
Proof. intros Hgen. unfold mbind, M_bind. by rewrite Hgen. Qed.

Lemma save_then (i : nat) (p : path) (im : image) (k : M B) :
  h !! i = Some im →
  ¬ (p = [] ∨ p ∈ d) →
  f !! os.dirname p = None →
  os.dirname p = [] ∨ os.dirname p ∈ d →
  (save i p ;; k) {| heap := h; dirs := d; files := f; stdout := o |}
  = k {| heap := h; dirs := d; files := <[p := Png im]> f; stdout := o |}.
Proof.
  intros Hi Hp Hf Hd. unfold mbind, M_bind, save, os.is_dir, os.is_file.
  simpl_world. rewrite Hi, Hf.
  rewrite (bool_decide_eq_false_2 _ Hp), (bool_decide_eq_true_2 _ Hd).
  rewrite bool_decide_eq_false_2; [done|]. by intros [? [=]].
Qed.

Lemma makedirs_then (p : path) (k : M B) :
  (∀ q, q ∈ prefixes_from [] p → f !! q = None) →
  (os.makedirs p ;; k) {| heap := h; dirs := d; files := f; stdout := o |}
  = k {| heap := h; dirs := list_to_set (prefixes_from [] p) ∪ d;
         files := f; stdout := o |}.
Proof.
  intros Hfree. unfold mbind, M_bind, os.makedirs.
  rewrite makedirs_from_run; [done|].
  intros q Hq. unfold os.is_file. simpl_world.
  rewrite (Hfree q Hq). apply bool_decide_eq_false_2. by intros [? [=]].
Qed.

(** A step that is followed by a normal end has passed its checks. *)
Lemma save_then_inv (i : nat) (p : path) (im : image) (k : M B) (b : B) (w' : world) :
  h !! i = Some im →
  (save i p ;; k) {| heap := h; dirs := d; files := f; stdout := o |} = (Ok b, w') →
  ¬ (p = [] ∨ p ∈ d) ∧
  f !! os.dirname p = None ∧
  (os.dirname p = [] ∨ os.dirname p ∈ d) ∧
  k {| heap := h; dirs := d; files := <[p := Png im]> f; stdout := o |} = (Ok b, w').
Proof.
  intros Hi. unfold mbind, M_bind, save, os.is_dir, os.is_file.
  simpl_world. rewrite Hi.
  repeat case_bool_decide; simpl; try discriminate.
  intros Hk. repeat split; try done.
  destruct (f !! os.dirname p) eqn:E; [|done].
  exfalso. eauto.
Qed.

Lemma makedirs_then_inv (p : path) (k : M B) (b : B) (w' : world) :
  (os.makedirs p ;; k) {| heap := h; dirs := d; files := f; stdout := o |} = (Ok b, w') →
  (∀ q, q ∈ prefixes_from [] p → f !! q = None) ∧
  k {| heap := h; dirs := list_to_set (prefixes_from [] p) ∪ d;
       files := f; stdout := o |} = (Ok b, w').
Proof.
  intros Hrun.
  assert (∀ q, q ∈ prefixes_from [] p → f !! q = None) as Hfree.
  { unfold mbind, M_bind, os.makedirs in Hrun.
    destruct (os.makedirs_from [] p _) as [[[]|e] w1] eqn:E; [|discriminate].
    intros q Hq. by apply (makedirs_from_inv _ _ _ _ E). }
  split; [done|]. by rewrite makedirs_then in Hrun.
Qed.

End Steps.

Lemma join_ne_self (d : path) (name : string) : os.join d name ≠ d.
Proof.
  unfold os.join. intros H. apply (f_equal length) in H.
  rewrite length_app in H. simpl in H. lia.
Qed.

Lemma join_ne_name (d d' : path) (a b : string) :
  a ≠ b → os.join d a ≠ os.join d' b.
Proof. unfold os.join. intros Hne H. by apply app_inj_tail in H as [_ ?]. Qed.

Lemma dirname_join (d : path) (name : string) : os.dirname (os.join d name) = d.
Proof. apply removelast_last. Qed.

Lemma length_dirname (p : path) : (length (os.dirname p) ≤ length p)%nat.
Proof.
  unfold os.dirname. destruct (decide (p = [])) as [->|Hne]; [done|].
  destruct (exists_last Hne) as (l & a & ->).
  rewrite removelast_last, length_app. lia.
Qed.

(** An ancestor of the splash directory is none of the icon files. *)
Lemma splash_prefix_ne (file : path) (name : string) (q : path) :
  name ≠ "splash" →
  q ∈ prefixes_from [] (splash_dir file) → q ≠ os.join (os.dirname file) name.
Proof.
  intros Hname Hq ->. apply prefixes_from_length in Hq as [Hlen Hfull].
  unfold splash_dir, os.join in *. rewrite !length_app in *. simpl in *.
  pose proof (length_dirname (os.dirname file)).
  specialize (Hfull ltac:(lia)). by apply app_inj_tail in Hfull as [_ ?].
Qed.

Lemma splash_dir_prefix (file : path) :
  splash_dir file ∈ prefixes_from [] (splash_dir file).
Proof.
  apply (prefixes_from_full []). unfold splash_dir, os.join.
  by destruct (os.dirname (os.dirname file)).
Qed.

(** From a ready file system, [main] runs to its end. *)
Lemma main_run (file : path) (w : world) :
  fs_ready file w = true → main file w = (Ok tt, after_main file w).
Proof.
  unfold fs_ready. rewrite !andb_true_iff, !negb_true_iff, forallb_forall.
  intros (((((Hdir & Hnf%is_file_false) & Hp1) & Hp2) & Hp3) & Hpre).
  assert (∀ q, q ∈ prefixes_from [] (splash_dir file) → files w !! q = None)
    as Hfree.
  { intros q Hq%list_elem_of_In. by apply is_file_false, negb_true_iff, Hpre. }
  clear Hpre.
  apply bool_decide_eq_true in Hdir.
  apply bool_decide_eq_false in Hp1, Hp2, Hp3.
  unfold after_main, main. destruct w as [h d f o].
  cbn [heap dirs files stdout] in *.
  rewrite !print_then.
  rewrite (generate_then _ _ _ _ _ app_icon_1024) by apply generate_app_icon_1024.
  rewrite (save_then _ _ _ _ _ _ app_icon_1024);
    [|by apply list_lookup_middle|done|by rewrite dirname_join
     |by rewrite dirname_join].
  rewrite print_then.
  rewrite (generate_then _ _ _ _ _ foreground_icon_1024)
    by apply generate_foreground_icon_1024.
  rewrite (save_then _ _ _ _ _ _ foreground_icon_1024);
    [|by apply list_lookup_middle|done| |by rewrite dirname_join].
  2:{ rewrite dirname_join. by rewrite lookup_insert_ne by apply join_ne_self. }
  rewrite print_then.
  rewrite (generate_then _ _ _ _ _ splash_icon_512)
    by apply generate_splash_icon_512.
  rewrite makedirs_then.
  2:{ intros q Hq.
      rewrite !lookup_insert_ne by (apply not_eq_sym, splash_prefix_ne; done).
      by apply Hfree. }
  rewrite (save_then _ _ _ _ _ _ splash_icon_512);
    [|by apply list_lookup_middle| | |].
  - rewrite !print_then. unfold print, main_output. simpl_world.
    by rewrite <- !app_assoc.
  - intros [Hnil | Hin]; [by apply Hp3; left|].
    apply elem_of_union in Hin as [Hin|Hin]; [|by apply Hp3; right].
    apply elem_of_list_to_set, prefixes_from_length in Hin as [Hlen _].
    fold (splash_icon_path file) in Hlen.
    unfold splash_icon_path, os.join in Hlen.
    rewrite !length_app in Hlen. cbn [length] in Hlen. lia.
  - rewrite dirname_join.
    rewrite !lookup_insert_ne by (apply join_ne_name; done).
    apply Hfree, splash_dir_prefix.
  - rewrite dirname_join. right.
    apply elem_of_union_l, elem_of_list_to_set, splash_dir_prefix.
Qed.

(** A run of [main] that ends normally started from a ready file system. *)
Lemma main_complete_inv (file : path) (w w' : world) :
  main file w = (Ok tt, w') → fs_ready file w = true.
Proof.
  unfold main. destruct w as [h d f o]. rewrite !print_then.
  rewrite (generate_then _ _ _ _ _ app_icon_1024) by apply generate_app_icon_1024.
  intros (Hp1 & Hnf & Hdir & Hrun)%(save_then_inv _ _ _ _ _ _ app_icon_1024);
    [|by apply list_lookup_middle].
  rewrite dirname_join in Hnf, Hdir.
  rewrite print_then in Hrun.
  rewrite (generate_then _ _ _ _ _ foreground_icon_1024) in Hrun
    by apply generate_foreground_icon_1024.
  apply (save_then_inv _ _ _ _ _ _ foreground_icon_1024) in Hrun
    as (Hp2 & _ & _ & Hrun); [|by apply list_lookup_middle].
  rewrite print_then in Hrun.
  rewrite (generate_then _ _ _ _ _ splash_icon_512) in Hrun
    by apply generate_splash_icon_512.
  apply makedirs_then_inv in Hrun as (Hfree & Hrun).
  apply (save_then_inv _ _ _ _ _ _ splash_icon_512) in Hrun
    as (Hp3 & _ & _ & _); [|by apply list_lookup_middle].
  unfold fs_ready, os.is_dir, os.is_file. simpl_world.
  rewrite !andb_true_iff, !negb_true_iff, forallb_forall.
  repeat split.
  - by apply bool_decide_eq_true.
  - apply bool_decide_eq_false. rewrite Hnf. by intros [? [=]].
  - by apply bool_decide_eq_false.
  - by apply bool_decide_eq_false.
  - apply bool_decide_eq_false. intros [?|?]; apply Hp3; [by left|right].
    by apply elem_of_union_r.
  - intros q Hq%list_elem_of_In. apply negb_true_iff, bool_decide_eq_false.
    specialize (Hfree q Hq).
    rewrite !lookup_insert_ne in Hfree
      by (apply not_eq_sym, splash_prefix_ne; done).
    rewrite Hfree. by intros [? [=]].
Qed.

(** C8: a complete run of [main] writes exactly three files, the PNG images
    [app_icon.png] and [app_icon_foreground.png] in the script's own
    directory and [splash_icon.png] in the directory [splash] next to the
    script's directory; that directory exists afterwards, being created
    (with missing ancestors) if it was not there; no other file is created
    or changed and no other directory is created. *)
Theorem main_writes_three_files (file : path) (w w' : world) :
  main file w = (Ok tt, w') →
    files w' = <[splash_icon_path file := Png splash_icon_512]>
                 (<[foreground_icon_path file := Png foreground_icon_1024]>
                    (<[app_icon_path file := Png app_icon_1024]> (files w))) ∧
    dom (files w') = {[app_icon_path file; foreground_icon_path file;
                       splash_icon_path file]} ∪ dom (files w) ∧
    NoDup [app_icon_path file; foreground_icon_path file; splash_icon_path file] ∧
    app_icon_path file = os.dirname file ++ ["app_icon.png"] ∧
    foreground_icon_path file = os.dirname file ++ ["app_icon_foreground.png"] ∧
    splash_icon_path file
      = os.dirname (os.dirname file) ++ ["splash"; "splash_icon.png"] ∧
    os.dirname (splash_icon_path file) = splash_dir file ∧
    os.dirname (splash_dir file) = os.dirname (os.dirname file) ∧
    splash_dir file ∈ dirs w' ∧
    dirs w' = list_to_set (prefixes_from [] (splash_dir file)) ∪ dirs w.
Proof.
  intros Hrun.
  assert (w' = after_main file w) as ->.
  { pose proof (main_run file w (main_complete_inv _ _ _ Hrun)). congruence. }
  split; [done|].
  split.
  { unfold after_main. simpl_world. rewrite !dom_insert_L. set_solver. }
  split.
  { rewrite !NoDup_cons, !elem_of_cons, !elem_of_nil.
    split; [|split; [|split; [tauto|apply NoDup_nil_2]]].
    - intros [Heq|[Heq|[]]]; by apply join_ne_name in Heq.
    - intros [Heq|[]]. by apply join_ne_name in Heq. }
  split; [done|]. split; [done|].
  split.
  { unfold splash_icon_path, splash_dir, os.join. by rewrite <- app_assoc. }
  split; [apply dirname_join|].
  split; [apply dirname_join|].
  split; [|done].
  unfold after_main. simpl_world.
  apply elem_of_union_l, elem_of_list_to_set, splash_dir_prefix.
Qed.

(** A run in a project tree that has no [splash] directory yet. *)
Lemma main_writes_three_files_in_project :
  ∃ w', main script_file w_project = (Ok tt, w') ∧
    dom (files w') = {[app_icon_path script_file;
                       foreground_icon_path script_file;
                       splash_icon_path script_file]} ∪ dom (files w_project) ∧
    (splash_dir script_file ∉ dirs w_project) ∧
    splash_dir script_file ∈ dirs w'.
Proof.
  assert (fs_ready script_file w_project = true) as Hready
    by (vm_compute; reflexivity).
  pose proof (main_run script_file w_project Hready) as Hrun.
  destruct (main_writes_three_files script_file w_project _ Hrun)
    as (_ & Hdom & _ & _ & _ & _ & _ & _ & Hsplash & _).
  eexists. split; [exact Hrun|]. split; [exact Hdom|].
  split; [|exact Hsplash]. vm_compute. intros H. discriminate H.
Defined.

(** C4: when the import of Pillow fails, the script prints the two lines
    of the remediation message and raises [SystemExit(1)], so the process
    ends with status 1; no image object has been created, no file written
    and no directory made, whatever the script's name and location. *)
Theorem missing_pillow_exits (name : string) (file : path) (w : world) :
  script false name file w
  = (Raise (SystemExit 1),
     set_stdout (stdout w ++ ["Error: Pillow library not found.";
                              "Install it with: pip install pillow"]) w) ∧
  exit_status (script false name file w).1 = 1 ∧
  heap (script false name file w).2 = heap w ∧
  files (script false name file w).2 = files w ∧
  dirs (script false name file w).2 = dirs w.
Proof.
  assert (script false name file w
          = (Raise (SystemExit 1),
             set_stdout (stdout w ++ ["Error: Pillow library not found.";
                                      "Install it with: pip install pillow"]) w))
    as Hrun.
  { unfold script, try_except, mbind, M_bind, import_PIL, raise, exit, print.
    simpl. unfold set_stdout. simpl. by rewrite <- app_assoc. }
  by rewrite Hrun.
Qed.

(** With Pillow installed, running the file as a script is running [main]. *)
Lemma script_runs_main (file : path) (w : world) :
  script true "__main__" file w = main file w.
Proof. done. Qed.

(** ** Pixels of the generated icons *)

Example app_icon_corner :
  getpixel sample_fill sample_outline sample_arc app_icon_1024 0 0
  = Some (Rgb 26 26 46).
Proof. vm_compute. reflexivity. Qed.

Example foreground_icon_corner :
  getpixel sample_fill sample_outline sample_arc foreground_icon_1024 0 0
  = Some (Rgba 0 0 0 0).
Proof. vm_compute. reflexivity. Qed.

Example foreground_icon_page :
  getpixel sample_fill sample_outline sample_arc foreground_icon_1024 400 320
  = Some (Rgba 255 255 255 255).
Proof. vm_compute. reflexivity. Qed.

Example foreground_icon_page_line :
  getpixel sample_fill sample_outline sample_arc foreground_icon_1024 500 444
  = Some (Rgba 230 230 230 255).
Proof. vm_compute. reflexivity. Qed.

Example splash_icon_keyhole :
  getpixel sample_fill sample_outline sample_arc splash_icon_512 348 348
  = Some (Rgba 76 175 80 255).
Proof. vm_compute. reflexivity. Qed.

Example splash_icon_outside :
  getpixel sample_fill sample_outline sample_arc splash_icon_512 512 0 = None.
Proof. vm_compute. reflexivity. Qed.



(** * Further properties of the drawing routines *)

Lemma drawn_notebook (x y size : Z) (color : color) :
  drawn (λ d, draw_notebook d x y size color) = notebook_trace x y size color.
Proof.
  rewrite (drawn_has_trace _ _ _ (draw_notebook_trace 0 x y size color)).
  by destruct (notebook_trace x y size color).
Qed.

Lemma drawn_lock_badge (x y size : Z) :
  drawn (λ d, draw_lock_badge d x y size) = badge_trace x y size.
Proof.
  rewrite (drawn_has_trace _ _ _ (draw_lock_badge_trace 0 x y size)).
  by destruct (badge_trace x y size).
Qed.

Lemma drawn_notebook_ok (x y size : Z) (color : color) :
  0 ≤ size < 2 ^ 1023 →
  ∃ lw, int_mul size c_0_6 = Some lw ∧
        drawn (λ d, draw_notebook d x y size color)
        = (Ok tt, notebook_shapes x y size color lw).
Proof.
  intros Hs. destruct (int_mul_total size c_0_6 factor_0_6 Hs) as (lw & Hlw & _).
  exists lw. split; [done|]. rewrite drawn_notebook. unfold notebook_trace.
  by rewrite Hlw.
Qed.

Lemma drawn_lock_badge_ok (x y size : Z) :
  0 ≤ size < 2 ^ 1023 →
  ∃ lh, int_mul size c_0_6 = Some lh ∧
        drawn (λ d, draw_lock_badge d x y size)
        = (Ok tt, badge_shapes x y size lh).
Proof.
  intros Hs. destruct (int_mul_total size c_0_6 factor_0_6 Hs) as (lh & Hlh & _).
  exists lh. split; [done|]. rewrite drawn_lock_badge. unfold badge_trace.
  by rewrite Hlh.
Qed.

Lemma fits_int32_double (x y size : Z) :
  fits_int32 x y size → 0 ≤ size < 2 ^ 1023.
Proof.
  intros (_ & _ & Hs). split; [lia|].
  apply Z.lt_trans with (2 ^ 30); [lia|]. by apply Z.pow_lt_mono_r.
Qed.

(** Within [fits_int32] every coordinate either routine passes to Pillow
    is a 32-bit integer, and so is the width of the shackle. *)
Lemma notebook_coordinates_fit (x y size : Z) (color : color) (lw : Z) (sh : shape) :
  fits_int32 x y size → int_mul size c_0_6 = Some lw →
  sh ∈ notebook_shapes x y size color lw → within (bbox sh) int32_box.
Proof.
  intros (Hx & Hy & Hs) Hlw Hin.
  pose proof (notebook_within x y size color lw sh ltac:(lia) Hlw Hin) as Hw.
  destruct (bbox sh) as [[[a0 b0] a1] b1].
  unfold within, int32_box in *.
  change (2 ^ 30) with 1073741824 in *. change (2 ^ 31) with 2147483648.
  Z.div_mod_to_equations. lia.
Qed.

Lemma badge_coordinates_fit (x y size lh : Z) (sh : shape) :
  fits_int32 x y size → int_mul size c_0_6 = Some lh →
  sh ∈ badge_shapes x y size lh →
  within (bbox sh) int32_box ∧ 0 ≤ size / 7 < 2 ^ 31.
Proof.
  intros (Hx & Hy & Hs) Hlh Hin.
  pose proof (badge_within x y size lh sh ltac:(lia) Hlh Hin) as Hw.
  destruct (bbox sh) as [[[a0 b0] a1] b1].
  unfold within, int32_box in *.
  change (2 ^ 30) with 1073741824 in *. change (2 ^ 31) with 2147483648.
  split; [lia|]. Z.div_mod_to_equations. lia.
Qed.

(** X1: whatever [draw_notebook] draws for a size [>= 0] (body, spine and
    page lines, or body and spine only when it stops on [OverflowError])
    lies within the body square
    [[x - size//2, y - size//2, x + size//2, y + size//2]]: the spine and
    the page lines never stick out of the notebook. *)
Theorem notebook_glyph_inside_body (x y size : Z) (color : color) (sh : shape) :
  0 ≤ size →
  sh ∈ (drawn (λ d, draw_notebook d x y size color)).2 →
  within (bbox sh) (x - size / 2, y - size / 2, x + size / 2, y + size / 2).
Proof.
  intros Hs. rewrite drawn_notebook. unfold notebook_trace.
  destruct (int_mul size c_0_6) as [lw|] eqn:Hlw; simpl.
  - by apply notebook_within.
  - intros Hin.
    repeat (apply elem_of_cons in Hin as [->|Hin]); [..|by apply elem_of_nil in Hin];
      unfold within; simpl; Z.div_mod_to_equations; lia.
Qed.

(** The last page line of the notebook of the 1024-pixel app icon. *)
Lemma notebook_glyph_inside_body_at_409 :
  within (bbox (page_line 512 512 409 245 2))
         (512 - 409 / 2, 512 - 409 / 2, 512 + 409 / 2, 512 + 409 / 2).
Proof.
  apply (notebook_glyph_inside_body 512 512 409 WHITE).
  - lia.
  - apply (list_elem_of_lookup_2 _ 4%nat). vm_compute. reflexivity.
Defined.

(** X2: for a centre and a size that keep every coordinate within 32
    bits, [draw_notebook] draws its three page lines with the same columns;
    for a size of at least 6 they are separate rows, each ending above the
    next, and the middle one is centred on [y]; for a size of at most 5 the
    spacing [size // 6] is zero and the three are one and the same
    rectangle. *)
Theorem page_lines_rows (x y size : Z) (color : color) :
  fits_int32 x y size →
  ∃ x0 x1 a0 a1 b0 b1 c0 c1,
    page_lines (drawn (λ d, draw_notebook d x y size color)).2
      = [(x0, a0, x1, a1); (x0, b0, x1, b1); (x0, c0, x1, c1)] ∧
    b0 + b1 = 2 * y ∧
    b0 - a0 = size / 6 ∧ c0 - b0 = size / 6 ∧
    (6 ≤ size → a0 ≤ a1 ∧ a1 < b0 ∧ b0 ≤ b1 ∧ b1 < c0 ∧ c0 ≤ c1) ∧
    (size ≤ 5 → a0 = b0 ∧ b0 = c0 ∧ a1 = b1 ∧ b1 = c1).
Proof.
  intros Hs%fits_int32_double.
  destruct (drawn_notebook_ok x y size color Hs) as (lw & _ & ->).
  eexists _, _, _, _, _, _, _, _. split; [reflexivity|].
  repeat split; intros; Z.div_mod_to_equations; lia.
Qed.

(** The notebook of the 1024-pixel app icon: rows 436-452, 504-520, 572-588. *)
Lemma page_lines_rows_at_409 :
  ∃ x0 x1 a0 a1 b0 b1 c0 c1,
    page_lines (drawn (λ d, draw_notebook d 512 512 409 WHITE)).2
      = [(x0, a0, x1, a1); (x0, b0, x1, b1); (x0, c0, x1, c1)] ∧
    b0 + b1 = 2 * 512 ∧
    b0 - a0 = 409 / 6 ∧ c0 - b0 = 409 / 6 ∧
    (6 ≤ 409 → a0 ≤ a1 ∧ a1 < b0 ∧ b0 ≤ b1 ∧ b1 < c0 ∧ c0 ≤ c1) ∧
    (409 ≤ 5 → a0 = b0 ∧ b0 = c0 ∧ a1 = b1 ∧ b1 = c1).
Proof. apply (page_lines_rows 512 512 409 WHITE), fits_int32_512_409. Defined.

(** X3: for a centre and a size that keep every coordinate within 32
    bits, the spine strip drawn by [draw_notebook] shares the body's left,
    top and bottom edges and is [size // 10] wide; for a size of at least 5
    every page line starts to the right of it, so the page lines, drawn
    later, never paint over the spine. *)
Theorem page_lines_right_of_spine (x y size : Z) (color : color) :
  fits_int32 x y size → 5 ≤ size →
  ∃ x0 y0 x1 y1 s1 ls,
    (drawn (λ d, draw_notebook d x y size color)).2
      = Rectangle (x0, y0, x1, y1) (Some color) (Some color)
        :: Rectangle (x0, y0, s1, y1) (Some (Rgb 200 200 200))
                     (Some (Rgb 200 200 200))
        :: ls ∧
    s1 - x0 = size / 10 ∧ s1 ≤ x1 ∧
    ∀ l, l ∈ page_lines ls → left_of (x0, y0, s1, y1) l.
Proof.
  intros Hs%fits_int32_double H5.
  destruct (drawn_notebook_ok x y size color Hs) as (lw & _ & ->).
  eexists _, _, _, _, _, _. split; [reflexivity|].
  split; [lia|]. split; [Z.div_mod_to_equations; lia|].
  intros l Hin. simpl in Hin.
  repeat (apply elem_of_cons in Hin as [->|Hin]); [..|by apply elem_of_nil in Hin];
    unfold left_of; Z.div_mod_to_equations; lia.
Qed.

(** The notebook of the 1024-pixel app icon. *)
Lemma page_lines_right_of_spine_at_409 :
  ∃ x0 y0 x1 y1 s1 ls,
    (drawn (λ d, draw_notebook d 512 512 409 WHITE)).2
      = Rectangle (x0, y0, x1, y1) (Some WHITE) (Some WHITE)
        :: Rectangle (x0, y0, s1, y1) (Some (Rgb 200 200 200))
                     (Some (Rgb 200 200 200))
        :: ls ∧
    s1 - x0 = 409 / 10 ∧ s1 ≤ x1 ∧
    ∀ l, l ∈ page_lines ls → left_of (x0, y0, s1, y1) l.
Proof.
  apply (page_lines_right_of_spine 512 512 409 WHITE fits_int32_512_409). lia.
Defined.

(** X4: whatever [draw_lock_badge] draws for a size [>= 0] (disk, lock
    body, shackle and keyhole) lies within the disk's bounding square
    [[x - size, y - size, x + size, y + size]]. *)
Theorem badge_glyph_inside_square (x y size : Z) (sh : shape) :
  0 ≤ size →
  sh ∈ (drawn (λ d, draw_lock_badge d x y size)).2 →
  within (bbox sh) (x - size, y - size, x + size, y + size).
Proof.
  intros Hs. rewrite drawn_lock_badge. unfold badge_trace.
  destruct (int_mul size c_0_6) as [lh|] eqn:Hlh; simpl.
  - by apply badge_within.
  - intros ->%list_elem_of_singleton. unfold within. simpl. lia.
Qed.

(** The shackle of the badge of the 1024-pixel app icon. *)
Lemma badge_glyph_inside_square_at_76 :
  within (bbox (lock_shackle 716 716 76 45))
         (716 - 76, 716 - 76, 716 + 76, 716 + 76).
Proof.
  apply (badge_glyph_inside_square 716 716 76).
  - lia.
  - apply (list_elem_of_lookup_2 _ 2%nat). vm_compute. reflexivity.
Defined.

Lemma keyhole_fits (size lh : Z) :
  0 ≤ size → int_mul size c_0_6 = Some lh →
  size / 8 ≤ lh / 4 ∧ size / 8 ≤ lh / 2 - lh / 4 ∧
  size / 8 ≤ size / 2 / 2 ∧ size / 8 ≤ size / 2 - size / 2 / 2.
Proof. intros Hs H. int_mul_facts H. Z.div_mod_to_equations. lia. Qed.

(** X5: for a centre and a size that keep every coordinate within 32
    bits, [draw_lock_badge] draws, in this order, the disk, the lock body,
    the shackle and the keyhole; disk and keyhole are centred on [(x, y)]
    and the keyhole's bounding box lies within the lock body, which it is
    drawn over. *)
Theorem keyhole_inside_lock_body (x y size : Z) :
  fits_int32 x y size →
  ∃ disk body arc start stop width hole,
    (drawn (λ d, draw_lock_badge d x y size)).2
      = [Ellipse disk (Some GREEN) (Some GREEN); Rectangle body (Some WHITE) None;
         Arc arc start stop (Some WHITE) width; Ellipse hole (Some GREEN) None] ∧
    center disk = (x, y) ∧ center hole = (x, y) ∧ within hole body.
Proof.
  intros Hs%fits_int32_double.
  destruct (drawn_lock_badge_ok x y size Hs) as (lh & Hlh & ->).
  eexists _, _, _, _, _, _, _. split; [reflexivity|].
  pose proof (keyhole_fits size lh ltac:(lia) Hlh).
  split; [|split].
  - unfold center. by rewrite !midpoint.
  - unfold center. by rewrite !midpoint.
  - unfold within. lia.
Qed.

(** The badge of the 1024-pixel app icon. *)
Lemma keyhole_inside_lock_body_at_76 :
  ∃ disk body arc start stop width hole,
    (drawn (λ d, draw_lock_badge d 716 716 76)).2
      = [Ellipse disk (Some GREEN) (Some GREEN); Rectangle body (Some WHITE) None;
         Arc arc start stop (Some WHITE) width; Ellipse hole (Some GREEN) None] ∧
    center disk = (716, 716) ∧ center hole = (716, 716) ∧ within hole body.
Proof. apply (keyhole_inside_lock_body 716 716 76), fits_int32_716_76. Defined.

(** X6: for a centre and a size that keep every coordinate within 32
    bits, the bounding box of the shackle arc drawn by [draw_lock_badge]
    ends exactly on the lock body's top edge, spans no more columns than
    the lock body and is centred on [x]; the arc is asked from 180 to 0
    degrees, in white, with a stroke of [size // 7]. *)
Theorem shackle_stands_on_lock_body (x y size : Z) :
  fits_int32 x y size →
  ∃ body arc,
    first_rectangle (drawn (λ d, draw_lock_badge d x y size)).2 = Some body ∧
    (drawn (λ d, draw_lock_badge d x y size)).2 !! 2%nat
      = Some (Arc arc 180 0 (Some WHITE) (size / 7)) ∧
    stands_on arc body x.
Proof.
  intros Hs%fits_int32_double.
  destruct (drawn_lock_badge_ok x y size Hs) as (lh & Hlh & ->).
  eexists _, _. split; [reflexivity|]. split; [reflexivity|].
  pose proof (lock_fits size lh ltac:(lia) Hlh).
  unfold stands_on. repeat split; Z.div_mod_to_equations; lia.
Qed.

(** The badge of the 1024-pixel app icon. *)
Lemma shackle_stands_on_lock_body_at_76 :
  ∃ body arc,
    first_rectangle (drawn (λ d, draw_lock_badge d 716 716 76)).2 = Some body ∧
    (drawn (λ d, draw_lock_badge d 716 716 76)).2 !! 2%nat
      = Some (Arc arc 180 0 (Some WHITE) (76 / 7)) ∧
    stands_on arc body 716.
Proof. apply (shackle_stands_on_lock_body 716 716 76), fits_int32_716_76. Defined.

(** * Further properties of the generators *)

Lemma within_trans (a b c : box) : within a b → within b c → within a c.
Proof.
  destruct a as [[[a0 a1] a2] a3], b as [[[b0 b1] b2] b3], c as [[[c0 c1] c2] c3].
  unfold within. lia.
Qed.

Lemma notebook_fits_app (s n : Z) :
  1 ≤ s → int_mul s c_0_4 = Some n →
  0 ≤ n ∧ 0 ≤ s / 2 - n / 2 ∧ s / 2 + n / 2 ≤ s - 1.
Proof. intros Hs H. int_mul_facts H. Z.div_mod_to_equations. lia. Qed.

Lemma notebook_fits_splash (s n : Z) :
  1 ≤ s → int_mul s c_0_35 = Some n →
  0 ≤ n ∧ 0 ≤ s / 2 - n / 2 ∧ s / 2 + n / 2 ≤ s - 1.
Proof. intros Hs H. int_mul_facts H. Z.div_mod_to_equations. lia. Qed.

(** The layout of an icon whose notebook and badge squares fit the canvas. *)
Lemma icon_shapes_in_canvas m c s cn cb cr im sh :
  (∀ n, int_mul s cn = Some n →
        0 ≤ n ∧ 0 ≤ s / 2 - n / 2 ∧ s / 2 + n / 2 ≤ s - 1) →
  (∀ bx r, int_mul s cb = Some bx → int_mul s cr = Some r →
           0 ≤ r ∧ 0 ≤ bx - r ∧ bx + r ≤ s - 1) →
  icon_image m c s cn cb cr = Ok im → sh ∈ im_layers im →
  within (bbox sh) (0, 0, s - 1, s - 1).
Proof.
  intros Hnb Hbd
    (_ & n & lw & bx & r & lh & Hn & Hlw & Hbx & Hr & Hlh & ->)%icon_image_inv.
  destruct (Hnb n Hn) as (? & ? & ?). destruct (Hbd bx r Hbx Hr) as (? & ? & ?).
  cbn [im_layers]. intros [Hin|Hin]%elem_of_app.
  - eapply within_trans;
      [by apply (notebook_within (s / 2) (s / 2) n WHITE lw)|].
    unfold within. lia.
  - eapply within_trans; [by apply (badge_within bx bx r lh)|].
    unfold within. lia.
Qed.

(** X7: for every size [s >= 1], every shape in an image a generator
    returns (notebook body, spine, page lines, badge disk, lock body,
    shackle, keyhole) has its bounding box within the pixels [0 .. s-1] of
    the canvas on both axes: nothing of the glyph or of the badge is cut
    off at an edge. *)
Theorem shapes_inside_canvas (gen : Z → M nat) (s : Z) (w : world)
    (im : image) (sh : shape) :
  gen ∈ generators → 1 ≤ s →
  returned (gen s w) = Ok im → sh ∈ im_layers im →
  within (bbox sh) (0, 0, s - 1, s - 1).
Proof.
  unfold generators. intros Hgen Hs.
  repeat (apply elem_of_cons in Hgen as [->|Hgen]); [..|by apply elem_of_nil in Hgen].
  - rewrite generate_app_icon_run, returned_icon_outcome.
    apply icon_shapes_in_canvas.
    + intros n. by apply notebook_fits_app.
    + intros bx r. by apply disk_fits_app.
  - rewrite generate_foreground_icon_run, returned_icon_outcome.
    apply icon_shapes_in_canvas.
    + intros n. by apply notebook_fits_app.
    + intros bx r. by apply disk_fits_app.
  - rewrite generate_splash_icon_run, returned_icon_outcome.
    apply icon_shapes_in_canvas.
    + intros n. by apply notebook_fits_splash.
    + intros bx r. by apply disk_fits_splash.
Qed.

(** The disk of the 512-pixel splash icon. *)
Lemma shapes_inside_canvas_at_512 :
  within (bbox (badge_disk 348 348 46)) (0, 0, 512 - 1, 512 - 1).
Proof.
  apply (shapes_inside_canvas generate_splash_icon 512 w_empty splash_icon_512).
  - apply (list_elem_of_lookup_2 _ 2%nat). reflexivity.
  - lia.
  - vm_compute. reflexivity.
  - apply (list_elem_of_lookup_2 _ 5%nat). vm_compute. reflexivity.
Defined.

Lemma corner_near_badge (s n bx : Z) :
  0 ≤ s < 2 ^ 50 → int_mul s c_0_4 = Some n → int_mul s c_0_7 = Some bx →
  -1 ≤ bx - (s / 2 + n / 2) ≤ 1.
Proof.
  intros Hs Hn Hbx. change (2 ^ 50) with 1125899906842624 in Hs.
  int_mul_facts Hn. int_mul_facts Hbx.
  rewrite HFe in * by lia. rewrite HFe0 in * by lia.
  Z.div_mod_to_equations. lia.
Qed.

(** X8: in the app icon and in the foreground icon the lock badge is
    centred on the notebook's lower right corner, within one pixel on each
    axis, for every size below [2^50]: [int(0.7*s)] against
    [s//2 + int(0.4*s)//2]. *)
Theorem badge_on_notebook_corner (gen : Z → M nat) (s : Z) (w : world) (im : image) :
  gen ∈ [generate_app_icon; generate_foreground_icon] →
  0 ≤ s < 2 ^ 50 →
  returned (gen s w) = Ok im →
  ∃ x0 y0 x1 y1 c,
    first_rectangle (im_layers im) = Some (x0, y0, x1, y1) ∧
    badge_center im = Some (c, c) ∧
    x1 = y1 ∧ -1 ≤ c - x1 ≤ 1.
Proof.
  intros Hgen Hs.
  assert (∃ m c, gen s w = icon_outcome m c s c_0_4 c_0_7 c_0_075 w)
    as (m & c & ->).
  { repeat (apply elem_of_cons in Hgen as [->|Hgen]);
      [eexists _, _; apply generate_app_icon_run
      |eexists _, _; apply generate_foreground_icon_run
      |by apply elem_of_nil in Hgen]. }
  rewrite returned_icon_outcome.
  intros (_ & n & lw & bx & r & lh & Hn & _ & Hbx & _ & _ & ->)%icon_image_inv.
  eexists _, _, _, _, bx. split; [reflexivity|].
  split; [unfold badge_center; simpl; by rewrite midpoint|].
  split; [done|]. by apply corner_near_badge.
Qed.

(** The 1024-pixel app icon: corner and badge centre are both at 716. *)
Lemma badge_on_notebook_corner_at_1024 :
  ∃ x0 y0 x1 y1 c,
    first_rectangle (im_layers app_icon_1024) = Some (x0, y0, x1, y1) ∧
    badge_center app_icon_1024 = Some (c, c) ∧
    x1 = y1 ∧ -1 ≤ c - x1 ≤ 1.
Proof.
  apply (badge_on_notebook_corner generate_app_icon 1024 w_empty).
  - apply list_elem_of_here.
  - lia.
  - vm_compute. reflexivity.
Defined.

Lemma splash_against_app (s a b n m : Z) :
  0 ≤ s →
  int_mul s c_0_075 = Some a → int_mul s c_0_09 = Some b →
  int_mul s c_0_4 = Some n → int_mul s c_0_35 = Some m →
  a ≤ b ∧ m ≤ n.
Proof.
  intros Hs H1 H2 H3 H4.
  int_mul_facts H1. int_mul_facts H2. int_mul_facts H3. int_mul_facts H4. lia.
Qed.

(** X9: at one and the same canvas size, the splash icon's notebook square
    is no wider than the app icon's ([int(0.35*s)] against [int(0.4*s)])
    and its badge disk is no narrower ([int(0.09*s)] against
    [int(0.075*s)]). *)
Theorem splash_proportions (s : Z) (w w' : world) (a p : image) :
  returned (generate_app_icon s w) = Ok a →
  returned (generate_splash_icon s w') = Ok p →
  ∃ na ba np bp,
    first_rectangle (im_layers a) = Some na ∧
    first_ellipse (im_layers a) = Some ba ∧
    first_rectangle (im_layers p) = Some np ∧
    first_ellipse (im_layers p) = Some bp ∧
    box_width np ≤ box_width na ∧ box_width ba ≤ box_width bp.
Proof.
  rewrite generate_app_icon_run, generate_splash_icon_run, !returned_icon_outcome.
  intros (Hs & n & lw & bx & r & lh & Hn & _ & _ & Hr & _ & ->)%icon_image_inv.
  intros (_ & n' & lw' & bx' & r' & lh' & Hn' & _ & _ & Hr' & _ & ->)%icon_image_inv.
  eexists _, _, _, _. do 4 (split; [reflexivity|]).
  pose proof (splash_against_app s r r' n n' Hs Hr Hr' Hn Hn').
  unfold box_width. Z.div_mod_to_equations. lia.
Qed.

(** Both icons at 512 pixels. *)
Lemma splash_proportions_at_512 :
  ∃ na ba np bp,
    first_rectangle (im_layers (image_of (returned (generate_app_icon 512 w_empty))))
      = Some na ∧
    first_ellipse (im_layers (image_of (returned (generate_app_icon 512 w_empty))))
      = Some ba ∧
    first_rectangle (im_layers splash_icon_512) = Some np ∧
    first_ellipse (im_layers splash_icon_512) = Some bp ∧
    box_width np ≤ box_width na ∧ box_width ba ≤ box_width bp.
Proof.
  apply (splash_proportions 512 w_empty w_empty);
    vm_compute; reflexivity.
Defined.

(** X10: a generator that returns has changed the image objects only by
    adding one: every image object that existed before the call is still
    there, unchanged and under the same reference, the new one comes last,
    is the one the returned reference names and has the requested size,
    and nothing outside the image objects has changed. *)
Theorem generators_allocate_only (gen : Z → M nat) (s : Z) (w w' : world) (i : nat) :
  gen ∈ generators → gen s w = (Ok i, w') →
  i = length (heap w) ∧
  ∃ im, heap w' = heap w ++ [im] ∧
        heap w' !! i = Some im ∧
        im_size im = (s, s) ∧
        (∀ j old, heap w !! j = Some old → heap w' !! j = Some old) ∧
        outside w' = outside w.
Proof.
  intros Hgen.
  destruct (generators_run gen Hgen) as (m & c & cn & cb & cr & _ & _ & _ & ->).
  unfold icon_outcome, ref_result. destruct (Z.ltb_spec s 0); [done|].
  destruct (icon_trace s cn cb cr).1 as [[]|e]; [|done].
  intros [= <- <-]. split; [done|].
  eexists. split; [reflexivity|]. simpl.
  split; [by rewrite lookup_app_r, Nat.sub_diag by lia|].
  split; [reflexivity|]. split; [|done].
  intros j old Hj. by apply lookup_app_l_Some.
Qed.

(** The splash generator called in a world that already holds an image. *)
Lemma generators_allocate_only_at_512 :
  generate_splash_icon 512 w_busy
  = (Ok (length (heap w_busy)),
     set_heap (heap w_busy ++ [splash_icon_512]) w_busy) ∧
  ∃ im, heap w_busy ++ [splash_icon_512] = heap w_busy ++ [im] ∧
        im_size im = (512, 512) ∧
        outside (set_heap (heap w_busy ++ [splash_icon_512]) w_busy)
        = outside w_busy.
Proof.
  pose proof (generate_splash_icon_512 w_busy) as Hrun.
  assert (generate_splash_icon ∈ generators) as Hgen
    by (apply (list_elem_of_lookup_2 _ 2%nat); reflexivity).
  destruct (generators_allocate_only generate_splash_icon 512 w_busy _ _ Hgen Hrun)
    as (_ & im & Him & _ & Hsize & _ & Hout).
  split; [exact Hrun|]. exists im.
  split; [exact Him|]. split; [exact Hsize|exact Hout].
Defined.

(** * Further properties of the pixels *)

Section MorePixels.
Variable fm om : box → Z → Z → bool.
Variable am : box → Z → Z → Z → Z → Z → bool.

Lemma pixel_under_snoc (m : mode) (ls : list shape) (sh : shape) (base : color)
    (px py : Z) :
  pixel_under fm om am m (ls ++ [sh]) base px py
  = match paint fm om am sh px py with
    | Some c => ink m c
    | None => pixel_under fm om am m ls base px py
    end.
Proof. unfold pixel_under. by rewrite fold_left_app. Qed.

(** X11: the keyhole is the last shape a generator draws, so in every
    image a generator returns, each pixel of the canvas that the rasteriser
    gives to the keyhole ellipse is green [(76, 175, 80)] (with alpha 255
    in the RGBA icons), whatever was drawn there before. *)
Theorem keyhole_is_green (gen : Z → M nat) (s : Z) (w : world) (im : image) :
  gen ∈ generators →
  returned (gen s w) = Ok im →
  ∃ hole,
    last (im_layers im) = Some (Ellipse hole (Some GREEN) None) ∧
    ∀ px py,
      in_canvas im px py = true → fm hole px py = true →
      getpixel fm om am im px py = Some (ink (im_mode im) GREEN).
Proof.
  intros Hgen.
  destruct (generators_run gen Hgen) as (m & c & cn & cb & cr & _ & _ & _ & ->).
  rewrite returned_icon_outcome.
  intros (_ & n & lw & bx & r & lh & _ & _ & _ & _ & _ & ->)%icon_image_inv.
  set (ls := notebook_shapes (s / 2) (s / 2) n WHITE lw
             ++ [badge_disk bx bx r; lock_body bx bx r lh;
                 lock_shackle bx bx r lh]).
  assert (notebook_shapes (s / 2) (s / 2) n WHITE lw ++ badge_shapes bx bx r lh
          = ls ++ [keyhole bx bx r]) as Hls.
  { unfold ls, badge_shapes. by rewrite <- app_assoc. }
  eexists. cbn [im_layers im_mode]. rewrite Hls. split; [apply last_snoc|].
  intros px py Hin Hhole. unfold getpixel, when. rewrite Hin.
  cbn [im_layers im_mode im_fill]. rewrite pixel_under_snoc.
  unfold keyhole, paint, when, or_else. rewrite Hhole.
  by destruct (om _ px py).
Qed.

Lemma paint_rgb (sh : shape) (px py : Z) (c : color) :
  rgb_shape sh = true → paint fm om am sh px py = Some c → alpha c = None.
Proof.
  unfold paint, or_else, when.
  destruct sh as [xy fill outline|xy fill outline|xy start stop fill width]; simpl.
  - intros [Hf Ho]%andb_true_iff.
    destruct (on_edge xy px py), (in_box xy px py), fill as [[]|], outline as [[]|];
      simpl in *; intros [= <-]; done.
  - intros [Hf Ho]%andb_true_iff.
    destruct (om xy px py), (fm xy px py), fill as [[]|], outline as [[]|];
      simpl in *; intros [= <-]; done.
  - intros Hf.
    destruct (am xy start stop width px py), fill as [[]|];
      simpl in *; intros [= <-]; done.
Qed.

Lemma pixel_under_binary (ls : list shape) (base : color) (px py : Z) :
  (∀ sh, sh ∈ ls → rgb_shape sh = true) →
  alpha base = Some 0 ∨ alpha base = Some 255 →
  alpha (pixel_under fm om am RGBA ls base px py) = Some 0 ∨
  alpha (pixel_under fm om am RGBA ls base px py) = Some 255.
Proof.
  unfold pixel_under. revert base.
  induction ls as [|sh ls IH]; intros base Hrgb Hb; simpl; [done|].
  apply IH; [intros sh' Hin; apply Hrgb; by right|].
  destruct (paint fm om am sh px py) as [c|] eqn:Hp; [|done].
  apply paint_rgb in Hp; [|apply Hrgb; by left].
  destruct c; [by right|done].
Qed.

Lemma getpixel_binary (im : image) (px py : Z) (c : color) :
  im_mode im = RGBA → im_fill im = Rgba 0 0 0 0 →
  (∀ sh, sh ∈ im_layers im → rgb_shape sh = true) →
  getpixel fm om am im px py = Some c →
  alpha c = Some 0 ∨ alpha c = Some 255.
Proof.
  intros Hm Hf Hrgb. unfold getpixel, when. rewrite Hm, Hf.
  destruct (in_canvas im px py); [|done].
  intros [= <-]. apply pixel_under_binary; [done|by left].
Qed.

Lemma icon_shapes_rgb (x y n lw bx r lh : Z) (sh : shape) :
  sh ∈ notebook_shapes x y n WHITE lw ++ badge_shapes bx bx r lh →
  rgb_shape sh = true.
Proof.
  intros Hin. unfold notebook_shapes, badge_shapes in Hin. simpl in Hin.
  repeat (apply elem_of_cons in Hin as [->|Hin]); [..|by apply elem_of_nil in Hin];
    done.
Qed.

(** X12: the foreground and splash icons have no half-transparent pixel:
    every pixel of the images [generate_foreground_icon] and
    [generate_splash_icon] return has alpha 0 (never drawn on) or alpha 255
    (drawn on, since every colour the script draws with is a three-channel
    tuple). *)
Theorem alpha_is_binary (gen : Z → M nat) (s : Z) (w : world) (im : image)
    (px py : Z) (c : color) :
  gen ∈ [generate_foreground_icon; generate_splash_icon] →
  returned (gen s w) = Ok im →
  getpixel fm om am im px py = Some c →
  alpha c = Some 0 ∨ alpha c = Some 255.
Proof.
  intros Hgen.
  assert (∃ cn cb cr,
            gen s w = icon_outcome RGBA (Rgba 0 0 0 0) s cn cb cr w) as Hrun.
  { repeat (apply elem_of_cons in Hgen as [->|Hgen]);
      [exists c_0_4, c_0_7, c_0_075; apply generate_foreground_icon_run
      |exists c_0_35, c_0_68, c_0_09; apply generate_splash_icon_run
      |by apply elem_of_nil in Hgen]. }
  destruct Hrun as (cn & cb & cr & ->). rewrite returned_icon_outcome.
  intros (_ & n & lw & bx & r & lh & _ & _ & _ & _ & _ & ->)%icon_image_inv.
  apply getpixel_binary; [done..|].
  intros sh. apply icon_shapes_rgb.
Qed.

(** X13: in the image [generate_app_icon] returns, every pixel of the
    canvas that no drawn shape touches has the background colour
    [(26, 26, 46)]; with a rasteriser that keeps every shape inside its
    bounding box, these are at least the pixels outside the notebook's
    square and the badge's square. *)
Theorem app_icon_background (s : Z) (w : world) (im : image) :
  returned (generate_app_icon s w) = Ok im →
  (∀ px py,
     in_canvas im px py = true →
     (∀ sh, sh ∈ im_layers im → touched fm om am sh px py = false) →
     getpixel fm om am im px py = Some BG_COLOR) ∧
  (boxed fm om am →
   ∃ nb bd,
     first_rectangle (im_layers im) = Some nb ∧
     first_ellipse (im_layers im) = Some bd ∧
     ∀ px py,
       in_canvas im px py = true →
       in_box nb px py = false → in_box bd px py = false →
       getpixel fm om am im px py = Some BG_COLOR).
Proof.
  rewrite generate_app_icon_run, returned_icon_outcome.
  intros (Hs & n & lw & bx & r & lh & Hn & Hlw & _ & Hr & Hlh & ->)%icon_image_inv.
  split.
  - intros px py Hin Hun. by rewrite getpixel_untouched.
  - intros Hboxed. eexists _, _. split; [done|]. split; [done|].
    intros px py Hin Hnb Hbd. rewrite getpixel_untouched; [done|done|].
    eapply untouched_outside; [exact Hboxed| |exact Hnb|exact Hbd].
    intros sh [Hsh|Hsh]%elem_of_app.
    + left. apply (notebook_within (s / 2) (s / 2) n WHITE lw); [|done..].
      apply (int_mul_le s c_0_4 n); [unfold factors; set_solver|done..].
    + right. apply (badge_within bx bx r lh); [|done..].
      apply (int_mul_le s c_0_075 r); [unfold factors; set_solver|done..].
Qed.

End MorePixels.

(** The 1024-pixel app icon under the sample rasteriser. *)
Lemma keyhole_is_green_at_1024 :
  ∃ hole,
    last (im_layers app_icon_1024) = Some (Ellipse hole (Some GREEN) None) ∧
    ∀ px py,
      in_canvas app_icon_1024 px py = true → sample_fill hole px py = true →
      getpixel sample_fill sample_outline sample_arc app_icon_1024 px py
      = Some (ink (im_mode app_icon_1024) GREEN).
Proof.
  apply (keyhole_is_green sample_fill sample_outline sample_arc
           generate_app_icon 1024 w_empty).
  - apply list_elem_of_here.
  - vm_compute. reflexivity.
Defined.

(** The centre of the badge of the 512-pixel splash icon is opaque. *)
Lemma alpha_is_binary_at_512 :
  alpha (Rgba 76 175 80 255) = Some 0 ∨ alpha (Rgba 76 175 80 255) = Some 255.
Proof.
  apply (alpha_is_binary sample_fill sample_outline sample_arc
           generate_splash_icon 512 w_empty splash_icon_512 348 348).
  - apply (list_elem_of_lookup_2 _ 1%nat). reflexivity.
  - vm_compute. reflexivity.
  - vm_compute. reflexivity.
Defined.

(** The 1024-pixel app icon under the sample rasteriser. *)
Lemma app_icon_background_at_1024 :
  (∀ px py,
     in_canvas app_icon_1024 px py = true →
     (∀ sh, sh ∈ im_layers app_icon_1024 →
            touched sample_fill sample_outline sample_arc sh px py = false) →
     getpixel sample_fill sample_outline sample_arc app_icon_1024 px py
     = Some BG_COLOR) ∧
  (boxed sample_fill sample_outline sample_arc →
   ∃ nb bd,
     first_rectangle (im_layers app_icon_1024) = Some nb ∧
     first_ellipse (im_layers app_icon_1024) = Some bd ∧
     ∀ px py,
       in_canvas app_icon_1024 px py = true →
       in_box nb px py = false → in_box bd px py = false →
       getpixel sample_fill sample_outline sample_arc app_icon_1024 px py
       = Some BG_COLOR).
Proof.
  apply (app_icon_background sample_fill sample_outline sample_arc 1024 w_empty).
  vm_compute. reflexivity.
Defined.

(** * Further properties of [main] *)

Lemma makedirs_from_cases (pre : path) (rest : list string) (w : world) :
  ∃ r d',
    os.makedirs_from pre rest w = (r, set_dirs d' w) ∧ dirs w ⊆ d' ∧
    (r = Ok tt ∨ ∃ e, r = Raise e ∧ is_fs_error e = true).
Proof.
  revert pre w. induction rest as [|c rest IH]; intros pre w; simpl.
  - exists (Ok tt), (dirs w). split; [by destruct w|]. split; [done|by left].
  - unfold mbind, M_bind. destruct (os.is_file w (pre ++ [c])).
    + eexists _, (dirs w). split; [by destruct w|]. split; [done|].
      right. eexists. split; [done|]. by destruct rest.
    + destruct (IH (pre ++ [c]) (set_dirs ({[pre ++ [c]]} ∪ dirs w) w))
        as (r & d' & -> & Hsub & Hr).
      exists r, d'. split; [done|]. split; [|done].
      simpl in Hsub. set_solver.
Qed.

(** [os.makedirs] stopped by a regular file at the last component. *)
Lemma makedirs_from_blocked (pre : path) (l : list string) (c : string) (w : world) :
  (∀ q, q ∈ prefixes_from pre l → os.is_file w q = false) →
  os.is_file w (pre ++ l ++ [c]) = true →
  os.makedirs_from pre (l ++ [c]) w
  = (Raise FileExistsError,
     set_dirs (list_to_set (prefixes_from pre l) ∪ dirs w) w).
Proof.
  revert pre w. induction l as [|a l IH]; intros pre w Hfree Hfile; simpl.
  - unfold mbind, M_bind. simpl in Hfile. rewrite Hfile.
    f_equal. destruct w. unfold set_dirs. simpl. f_equal. set_solver.
  - unfold mbind, M_bind. rewrite Hfree by left.
    rewrite IH.
    + unfold set_dirs. simpl. do 2 f_equal. set_solver.
    + intros q Hq. unfold os.is_file. simpl. apply Hfree. by right.
    + unfold os.is_file in Hfile |- *. simpl.
      by rewrite <- app_assoc.
Qed.

(** [os.makedirs] raises [FileExistsError] only for a regular file that
    has the name of the directory asked for. *)
Lemma makedirs_from_exists (pre : path) (rest : list string) (w w' : world) :
  os.makedirs_from pre rest w = (Raise FileExistsError, w') →
  os.is_file w (pre ++ rest) = true.
Proof.
  revert pre w. induction rest as [|c rest IH]; intros pre w; simpl; [done|].
  unfold mbind, M_bind. destruct (os.is_file w (pre ++ [c])) eqn:Hfile.
  - destruct rest; [by intros _|done].
  - intros Hrun%IH. by rewrite <- app_assoc in Hrun.
Qed.

Section MoreSteps.
Context {B : Type}.
Variables (h : list image) (d : gset path) (f : gmap path content) (o : list string).

(** [save] never raises [FileExistsError]: it overwrites. *)
Lemma save_cases_exn (i : nat) (p : path) (im : image) (k : M B) :
  h !! i = Some im →
  (save i p ;; k) {| heap := h; dirs := d; files := f; stdout := o |}
  = k {| heap := h; dirs := d; files := <[p := Png im]> f; stdout := o |} ∨
  ∃ e w', e ≠ FileExistsError ∧
       (save i p ;; k) {| heap := h; dirs := d; files := f; stdout := o |}
       = (Raise e, w').
Proof.
  intros Hi. unfold mbind, M_bind, save. simpl_world. rewrite Hi.
  destruct (os.is_dir _ p);
    [right; eexists _, _; split; [|reflexivity]; done|].
  destruct (os.is_file _ (os.dirname p));
    [right; eexists _, _; split; [|reflexivity]; done|].
  destruct (os.is_dir _ (os.dirname p));
    [by left|right; eexists _, _; split; [|reflexivity]; done].
Qed.

(** [os.makedirs] raising [FileExistsError] has left files, images and
    output as they were. *)
Lemma makedirs_cases_exn (p : path) (k : M B) :
  (os.makedirs p ;; k) {| heap := h; dirs := d; files := f; stdout := o |}
  = k {| heap := h; dirs := list_to_set (prefixes_from [] p) ∪ d;
         files := f; stdout := o |} ∨
  (∃ e w', e ≠ FileExistsError ∧
       (os.makedirs p ;; k) {| heap := h; dirs := d; files := f; stdout := o |}
       = (Raise e, w')) ∨
  (∃ d', is_Some (f !! p) ∧
       (os.makedirs p ;; k) {| heap := h; dirs := d; files := f; stdout := o |}
       = (Raise FileExistsError,
          {| heap := h; dirs := d'; files := f; stdout := o |})).
Proof.
  destruct (makedirs_from_cases [] p
              {| heap := h; dirs := d; files := f; stdout := o |})
    as (r & d' & Hrun & Hsub & [->|(e & -> & He)]).
  - left. rewrite makedirs_then; [done|].
    intros q Hq. by apply (makedirs_from_inv _ _ _ _ Hrun).
  - right.
    assert ((os.makedirs p ;; k) {| heap := h; dirs := d; files := f; stdout := o |}
            = (Raise e, {| heap := h; dirs := d'; files := f; stdout := o |}))
      as Hfail by (unfold mbind, M_bind, os.makedirs; by rewrite Hrun).
    destruct e; try (left; eexists _, _; split; [|exact Hfail]; done).
    right. exists d'. split; [|exact Hfail].
    apply makedirs_from_exists in Hrun. by apply bool_decide_eq_true in Hrun.
Qed.

(** [save] either writes its file or raises a file system exception and
    changes nothing. *)
Lemma save_cases (i : nat) (p : path) (im : image) (k : M B) :
  h !! i = Some im →
  (save i p ;; k) {| heap := h; dirs := d; files := f; stdout := o |}
  = k {| heap := h; dirs := d; files := <[p := Png im]> f; stdout := o |} ∨
  ∃ e, is_fs_error e = true ∧
       (save i p ;; k) {| heap := h; dirs := d; files := f; stdout := o |}
       = (Raise e, {| heap := h; dirs := d; files := f; stdout := o |}).
Proof.
  intros Hi. unfold mbind, M_bind, save. simpl_world. rewrite Hi.
  destruct (os.is_dir _ p);
    [right; eexists; split; [|reflexivity]; done|].
  destruct (os.is_file _ (os.dirname p));
    [right; eexists; split; [|reflexivity]; done|].
  destruct (os.is_dir _ (os.dirname p));
    [by left|right; eexists; split; [|reflexivity]; done].
Qed.

(** [os.makedirs] either creates every missing directory on the way or
    raises a file system exception, having created some of them. *)
Lemma makedirs_cases (p : path) (k : M B) :
  (os.makedirs p ;; k) {| heap := h; dirs := d; files := f; stdout := o |}
  = k {| heap := h; dirs := list_to_set (prefixes_from [] p) ∪ d;
         files := f; stdout := o |} ∨
  ∃ e d', is_fs_error e = true ∧ d ⊆ d' ∧
       (os.makedirs p ;; k) {| heap := h; dirs := d; files := f; stdout := o |}
       = (Raise e, {| heap := h; dirs := d'; files := f; stdout := o |}).
Proof.
  destruct (makedirs_from_cases [] p
              {| heap := h; dirs := d; files := f; stdout := o |})
    as (r & d' & Hrun & Hsub & [->|(e & -> & He)]).
  - left. rewrite makedirs_then; [done|].
    intros q Hq. by apply (makedirs_from_inv _ _ _ _ Hrun).
  - right. exists e, d'. split; [done|]. split; [done|].
    unfold mbind, M_bind, os.makedirs. by rewrite Hrun.
Qed.

End MoreSteps.

(** Every way [main] can end. *)
Lemma main_cases (file : path) (w : world) :
  ∃ r w',
    main file w = (r, w') ∧
    (r = Ok tt ∨ ∃ e, r = Raise e ∧ is_fs_error e = true) ∧
    written_so_far file (files w) (files w') ∧
    dirs w ⊆ dirs w'.
Proof.
  unfold main, written_so_far. destruct w as [h d f o]. simpl_world.
  rewrite !print_then.
  rewrite (generate_then _ _ _ _ _ app_icon_1024) by apply generate_app_icon_1024.
  match goal with
  | |- ∃ r w', (save ?i ?p ;; ?k) {| heap := ?h'; dirs := ?d'; files := ?f';
                                    stdout := ?o' |} = _ ∧ _ =>
      destruct (save_cases h' d' f' o' i p app_icon_1024 k)
        as [Hok|(e & He & Hfail)]; [by apply list_lookup_middle| |]
  end.
  2:{ eexists _, _. split; [exact Hfail|]. split; [right; eauto|].
      split; [by left|done]. }
  rewrite Hok. clear Hok. rewrite print_then.
  rewrite (generate_then _ _ _ _ _ foreground_icon_1024)
    by apply generate_foreground_icon_1024.
  match goal with
  | |- ∃ r w', (save ?i ?p ;; ?k) {| heap := ?h'; dirs := ?d'; files := ?f';
                                    stdout := ?o' |} = _ ∧ _ =>
      destruct (save_cases h' d' f' o' i p foreground_icon_1024 k)
        as [Hok|(e & He & Hfail)]; [by apply list_lookup_middle| |]
  end.
  2:{ eexists _, _. split; [exact Hfail|]. split; [right; eauto|].
      split; [right; by left|done]. }
  rewrite Hok. clear Hok. rewrite print_then.
  rewrite (generate_then _ _ _ _ _ splash_icon_512)
    by apply generate_splash_icon_512.
  match goal with
  | |- ∃ r w', (os.makedirs ?p ;; ?k) {| heap := ?h'; dirs := ?d'; files := ?f';
                                        stdout := ?o' |} = _ ∧ _ =>
      destruct (makedirs_cases h' d' f' o' p k)
        as [Hok|(e & d2 & He & Hsub & Hfail)]
  end.
  2:{ eexists _, _. split; [exact Hfail|]. split; [right; eauto|].
      split; [right; right; by left|done]. }
  rewrite Hok. clear Hok.
  match goal with
  | |- ∃ r w', (save ?i ?p ;; ?k) {| heap := ?h'; dirs := ?d'; files := ?f';
                                    stdout := ?o' |} = _ ∧ _ =>
      destruct (save_cases h' d' f' o' i p splash_icon_512 k)
        as [Hok|(e & He & Hfail)]; [by apply list_lookup_middle| |]
  end.
  2:{ eexists _, _. split; [exact Hfail|]. split; [right; eauto|].
      split; [right; right; by left|]. simpl_world. set_solver. }
  rewrite Hok. clear Hok. rewrite !print_then.
  eexists _, _. split; [reflexivity|]. split; [by left|].
  split; [by do 3 right|]. simpl_world. set_solver.
Qed.

(** X14: after a complete run of [main], [app_icon.png] holds a 1024 by
    1024 RGB image, [app_icon_foreground.png] a 1024 by 1024 RGBA image and
    [splash_icon.png] a 512 by 512 RGBA image, and these are the images
    [generate_app_icon(1024)], [generate_foreground_icon(1024)] and
    [generate_splash_icon(512)] return. *)
Theorem main_file_contents (file : path) (w w' : world) :
  main file w = (Ok tt, w') →
  ∃ a f p,
    files w' !! app_icon_path file = Some (Png a) ∧
    files w' !! foreground_icon_path file = Some (Png f) ∧
    files w' !! splash_icon_path file = Some (Png p) ∧
    (im_mode a, im_size a) = (RGB, (1024, 1024)) ∧
    (im_mode f, im_size f) = (RGBA, (1024, 1024)) ∧
    (im_mode p, im_size p) = (RGBA, (512, 512)) ∧
    ∀ w0, returned (generate_app_icon 1024 w0) = Ok a ∧
          returned (generate_foreground_icon 1024 w0) = Ok f ∧
          returned (generate_splash_icon 512 w0) = Ok p.
Proof.
  intros Hrun.
  assert (w' = after_main file w) as ->.
  { pose proof (main_run file w (main_complete_inv _ _ _ Hrun)). congruence. }
  exists app_icon_1024, foreground_icon_1024, splash_icon_512.
  unfold after_main. simpl_world.
  split.
  { rewrite !lookup_insert_ne by (apply join_ne_name; done).
    apply lookup_insert_eq. }
  split.
  { rewrite lookup_insert_ne by (apply join_ne_name; done).
    apply lookup_insert_eq. }
  split; [apply lookup_insert_eq|].
  do 3 (split; [vm_compute; reflexivity|]).
  intros w0.
  rewrite generate_app_icon_1024, generate_foreground_icon_1024,
    generate_splash_icon_512.
  unfold returned. simpl_world. by rewrite !list_lookup_middle by done.
Qed.

(** The run in the project tree. *)
Lemma main_file_contents_in_project :
  ∃ a f p,
    files (after_main script_file w_project) !! app_icon_path script_file
      = Some (Png a) ∧
    files (after_main script_file w_project) !! foreground_icon_path script_file
      = Some (Png f) ∧
    files (after_main script_file w_project) !! splash_icon_path script_file
      = Some (Png p) ∧
    (im_mode a, im_size a) = (RGB, (1024, 1024)) ∧
    (im_mode f, im_size f) = (RGBA, (1024, 1024)) ∧
    (im_mode p, im_size p) = (RGBA, (512, 512)) ∧
    ∀ w0, returned (generate_app_icon 1024 w0) = Ok a ∧
          returned (generate_foreground_icon 1024 w0) = Ok f ∧
          returned (generate_splash_icon 512 w0) = Ok p.
Proof.
  apply (main_file_contents script_file w_project).
  apply main_run. vm_compute. reflexivity.
Defined.

(** X15: a run of [main] ends normally only if the file system was ready
    for it (the script's directory is a directory, none of the three
    targets is a directory, and no regular file has the name of the splash
    directory or of one of its ancestors), and it has then printed the ten
    progress lines, in the order of the script, and nothing else, after
    what had been printed before. *)
Theorem main_complete_run (file : path) (w w' : world) :
  main file w = (Ok tt, w') →
  fs_ready file w = true ∧ stdout w' = stdout w ++ main_output.
Proof.
  intros Hrun. pose proof (main_complete_inv _ _ _ Hrun) as Hready.
  assert (w' = after_main file w) as ->.
  { pose proof (main_run file w Hready). congruence. }
  done.
Qed.

(** The run in the project tree. *)
Lemma main_complete_run_in_project :
  fs_ready script_file w_project = true ∧
  stdout (after_main script_file w_project) = stdout w_project ++ main_output.
Proof.
  assert (fs_ready script_file w_project = true) as Hready
    by (vm_compute; reflexivity).
  exact (main_complete_run script_file w_project _
           (main_run script_file w_project Hready)).
Defined.

(** X16: however [main] ends, it has changed no file other than the three
    icon files, so it deletes nothing and a failure leaves the icons
    written before it in place, and every directory that existed still
    exists. *)
Theorem main_keeps_other_files (file : path) (w : world) (p : path) :
  p ∉ [app_icon_path file; foreground_icon_path file; splash_icon_path file] →
  files (main file w).2 !! p = files w !! p ∧
  written_so_far file (files w) (files (main file w).2) ∧
  dirs w ⊆ dirs (main file w).2.
Proof.
  rewrite !not_elem_of_cons. intros (H1 & H2 & H3 & _).
  destruct (main_cases file w) as (r & w' & Hrun & _ & Hfiles & Hdirs).
  rewrite Hrun. split; [|split; assumption]. simpl in *.
  destruct Hfiles as [-> | [-> | [-> | ->]]]; by rewrite ?lookup_insert_ne.
Qed.

(** The script file itself, in the project tree. *)
Lemma main_keeps_other_files_in_project :
  files (main script_file w_project).2 !! script_file
    = files w_project !! script_file ∧
  written_so_far script_file (files w_project)
    (files (main script_file w_project).2) ∧
  dirs w_project ⊆ dirs (main script_file w_project).2.
Proof.
  apply (main_keeps_other_files script_file w_project script_file).
  intros H.
  repeat (apply elem_of_cons in H as [H|H]); try discriminate H.
  by apply elem_of_nil in H.
Defined.

Lemma ancestor_ne (file : path) (name : string) (q : path) :
  q ∈ prefixes_from [] (os.dirname (os.dirname file)) →
  q ≠ os.join (os.dirname file) name.
Proof.
  intros Hq ->. apply prefixes_from_length in Hq as [Hlen _].
  unfold os.join in Hlen. rewrite length_app in Hlen. simpl in Hlen.
  pose proof (length_dirname (os.dirname file)). lia.
Qed.

(** A run stopped by a regular file that has the name of the splash
    directory, the script's directory being in order. *)
Lemma main_blocked_run (file : path) (w : world) :
  splash_blocked file w = true →
  ∃ w',
    main file w = (Raise FileExistsError, w') ∧
    files w' = <[foreground_icon_path file := Png foreground_icon_1024]>
                 (<[app_icon_path file := Png app_icon_1024]> (files w)) ∧
    files w' !! splash_icon_path file = files w !! splash_icon_path file ∧
    stdout w' = stdout w ++ take 4 main_output.
Proof.
  unfold splash_blocked. rewrite !andb_true_iff, !negb_true_iff, forallb_forall.
  intros (((((Hdir & Hnf%is_file_false) & Hp1) & Hp2) & Hpre) & Hblock).
  assert (∀ q, q ∈ prefixes_from [] (os.dirname (os.dirname file)) →
               files w !! q = None) as Hfree.
  { intros q Hq%list_elem_of_In. by apply is_file_false, negb_true_iff, Hpre. }
  clear Hpre.
  apply bool_decide_eq_true in Hdir.
  apply bool_decide_eq_false in Hp1, Hp2.
  unfold os.is_file in Hblock. apply bool_decide_eq_true in Hblock.
  unfold main. destruct w as [h d f o].
  cbn [heap dirs files stdout] in *.
  rewrite !print_then.
  rewrite (generate_then _ _ _ _ _ app_icon_1024) by apply generate_app_icon_1024.
  rewrite (save_then _ _ _ _ _ _ app_icon_1024);
    [|by apply list_lookup_middle|done|by rewrite dirname_join
     |by rewrite dirname_join].
  rewrite print_then.
  rewrite (generate_then _ _ _ _ _ foreground_icon_1024)
    by apply generate_foreground_icon_1024.
  rewrite (save_then _ _ _ _ _ _ foreground_icon_1024);
    [|by apply list_lookup_middle|done| |by rewrite dirname_join].
  2:{ rewrite dirname_join. by rewrite lookup_insert_ne by apply join_ne_self. }
  rewrite print_then.
  rewrite (generate_then _ _ _ _ _ splash_icon_512)
    by apply generate_splash_icon_512.
  change (os.join (os.dirname (os.dirname file)) "splash")
    with (os.dirname (os.dirname file) ++ ["splash"]).
  unfold mbind at 1, M_bind at 1, os.makedirs.
  rewrite makedirs_from_blocked.
  - eexists. split; [reflexivity|]. simpl_world.
    split; [done|]. split.
    + by rewrite !lookup_insert_ne by (apply join_ne_name; done).
    + unfold main_output. simpl. by rewrite <- !app_assoc.
  - intros q Hq. unfold os.is_file. simpl_world.
    rewrite !lookup_insert_ne by (apply not_eq_sym, ancestor_ne; done).
    rewrite (Hfree q Hq). apply bool_decide_eq_false_2. by intros [? [=]].
  - unfold os.is_file. simpl_world.
    rewrite !lookup_insert_ne by (apply join_ne_name; done).
    by apply bool_decide_eq_true_2.
Qed.

(** X17: a run of [main] that ends with [FileExistsError] was stopped by
    [os.makedirs] at a regular file that has the name of the splash
    directory, after [app_icon.png] and [app_icon_foreground.png] were
    written: both stay on disk, [splash_icon.png] is not written, and only
    the first four progress lines have been printed. *)
Theorem main_partial_output (file : path) (w w' : world) :
  main file w = (Raise FileExistsError, w') →
  os.is_file w (splash_dir file) = true ∧
  files w' = <[foreground_icon_path file := Png foreground_icon_1024]>
               (<[app_icon_path file := Png app_icon_1024]> (files w)) ∧
  files w' !! splash_icon_path file = files w !! splash_icon_path file ∧
  stdout w' = stdout w ++ take 4 main_output.
Proof.
  unfold main. destruct w as [h d f o]. simpl_world.
  rewrite !print_then.
  rewrite (generate_then _ _ _ _ _ app_icon_1024) by apply generate_app_icon_1024.
  match goal with
  | |- (save ?i ?p ;; ?k) {| heap := ?h'; dirs := ?d'; files := ?f';
                             stdout := ?o' |} = _ → _ =>
      destruct (save_cases_exn h' d' f' o' i p app_icon_1024 k)
        as [-> | (e & w0 & He & ->)]; [by apply list_lookup_middle| |congruence]
  end.
  rewrite print_then.
  rewrite (generate_then _ _ _ _ _ foreground_icon_1024)
    by apply generate_foreground_icon_1024.
  match goal with
  | |- (save ?i ?p ;; ?k) {| heap := ?h'; dirs := ?d'; files := ?f';
                             stdout := ?o' |} = _ → _ =>
      destruct (save_cases_exn h' d' f' o' i p foreground_icon_1024 k)
        as [-> | (e & w0 & He & ->)]; [by apply list_lookup_middle| |congruence]
  end.
  rewrite print_then.
  rewrite (generate_then _ _ _ _ _ splash_icon_512)
    by apply generate_splash_icon_512.
  match goal with
  | |- (os.makedirs ?p ;; ?k) {| heap := ?h'; dirs := ?d'; files := ?f';
                                 stdout := ?o' |} = _ → _ =>
      destruct (makedirs_cases_exn h' d' f' o' p k)
        as [-> | [(e & w0 & He & ->) | (d2 & Hfile & ->)]]; [|congruence|]
  end.
  - match goal with
    | |- (save ?i ?p ;; ?k) {| heap := ?h'; dirs := ?d'; files := ?f';
                               stdout := ?o' |} = _ → _ =>
        destruct (save_cases_exn h' d' f' o' i p splash_icon_512 k)
          as [-> | (e & w0 & He & ->)]; [by apply list_lookup_middle| |congruence]
    end.
    rewrite !print_then. discriminate.
  - intros [= <-]. simpl_world.
    split.
    { apply bool_decide_eq_true.
      by rewrite !lookup_insert_ne in Hfile by (apply join_ne_name; done). }
    split; [done|]. split.
    + by rewrite !lookup_insert_ne by (apply join_ne_name; done).
    + unfold main_output. simpl. by rewrite <- !app_assoc.
Qed.

(** The project tree with a file named [splash] in the way. *)
Lemma main_partial_output_in_project :
  ∃ w',
    main script_file w_blocked = (Raise FileExistsError, w') ∧
    os.is_file w_blocked (splash_dir script_file) = true ∧
    files w' = <[foreground_icon_path script_file := Png foreground_icon_1024]>
                 (<[app_icon_path script_file := Png app_icon_1024]>
                    (files w_blocked)) ∧
    files w' !! splash_icon_path script_file
      = files w_blocked !! splash_icon_path script_file ∧
    stdout w' = stdout w_blocked ++ take 4 main_output.
Proof.
  assert (splash_blocked script_file w_blocked = true) as Hblocked
    by (vm_compute; reflexivity).
  destruct (main_blocked_run script_file w_blocked Hblocked) as (w' & Hrun & _).
  exists w'. split; [exact Hrun|].
  exact (main_partial_output script_file w_blocked w' Hrun).
Defined.
